(** * DepthAI daemon: a shallow embedding of [depthai_daemon.py]

    The development follows the classes of the daemon:
    - [Config]      : [DepthAIConfig] (defaults, [load_config], merge);
    - [Stats]       : [DepthAIStats]  (counters and the two rolling windows);
    - [Health]      : [HealthMonitor._check_health];
    - [StatusFile]  : [HealthMonitor._update_status], steps on the status path;
    - [Reload]      : object references held by the daemon and its monitor;
    - [Artifacts]   : [_save_frame], [_save_imu_data], [_cleanup_old_files];
    - [Supervisor]  : the reconnect loop of [DepthAIDaemon.run].

    Conventions.  Python [int] is [Z]; Python [float] (timestamps, rates,
    temperatures) is an exact rational [Q], so rounding is abstracted away
    while the comparisons and the zero test of a denominator are kept; [None]
    is [PNone] or the [None] of an [option]; a [dict] with string keys is a
    [gmap string _]; a raised exception is the [Raise] branch of [result]. *)

From Stdlib Require Import ZArith QArith Lia Lqa Ascii String.
From stdpp Require Import gmap strings list fin_maps pretty sorting.

#[local] Set Warnings "-register-all".
#[local] Open Scope Z_scope.

(** ** Python values and exceptions *)

Inductive pyval : Type :=
  | PNone
  | PBool (b : bool)
  | PInt (z : Z)
  | PFloat (q : Q)
  | PStr (s : string)
  | PList (l : list pyval)
  | PDict (d : gmap string pyval).

Inductive exn : Type :=
  | ZeroDivisionError
  | AttributeError
  | KeyError
  | TypeError
  | DeviceError.

Inductive result (A : Type) : Type :=
  | Ok (a : A)
  | Raise (e : exn).
Arguments Ok {A} a.
Arguments Raise {A} e.

Definition bind {A B : Type} (r : result A) (k : A -> result B) : result B :=
  match r with
  | Ok a => k a
  | Raise e => Raise e
  end.

Notation "'let*' x := r 'in' k" := (bind r (fun x => k))
  (at level 10, x name, r at level 100, k at level 200).

(** [json.dump] of the three constants of the language. *)
Definition json_constant (v : pyval) : option string :=
  match v with
  | PNone => Some "null"%string
  | PBool true => Some "true"%string
  | PBool false => Some "false"%string
  | _ => None
  end.

(** A value usable as an integer: an [int], or a [bool], which Python
    counts as 0 or 1. *)
Definition python_int (v : pyval) : option Z :=
  match v with
  | PInt z => Some z
  | PBool b => Some (if b then 1 else 0)
  | _ => None
  end.

(** [d[k1][k2]] on a nested dictionary; [None] stands for the [KeyError]
    (or [TypeError]) Python raises. *)
Definition subscript2 (d : gmap string pyval) (k1 k2 : string) : option pyval :=
  match d !! k1 with
  | Some (PDict s) => s !! k2
  | _ => None
  end.

(** ** DepthAIConfig *)

Module Config.

Definition DEFAULT_CONFIG : gmap string pyval :=
  {[ "camera"%string := PDict
       {[ "rgb_resolution"%string := PList [PInt 1920; PInt 1080];
          "rgb_fps"%string := PInt 30;
          "mono_resolution"%string := PList [PInt 640; PInt 400];
          "mono_fps"%string := PInt 30;
          "depth_enabled"%string := PBool true;
          "preview_size"%string := PList [PInt 640; PInt 480];
          "imu_enabled"%string := PBool true;
          "imu_frequency"%string := PInt 100 ]};
     "ai"%string := PDict
       {[ "model_enabled"%string := PBool false;
          "model_path"%string := PStr "";
          "model_name"%string := PStr "mobilenet-ssd";
          "confidence_threshold"%string := PFloat (1 # 2) ]};
     "output"%string := PDict
       {[ "save_frames"%string := PBool false;
          "output_directory"%string := PStr "/tmp/depthai-frames";
          "max_files"%string := PInt 1000;
          "stream_enabled"%string := PBool false;
          "stream_port"%string := PInt 8080;
          "rtsp_enabled"%string := PBool false;
          "rtsp_port"%string := PInt 8554 ]};
     "service"%string := PDict
       {[ "health_check_interval"%string := PInt 30;
          "max_reconnect_attempts"%string := PInt 5;
          "reconnect_delay"%string := PInt 10;
          "log_level"%string := PStr "INFO";
          "stats_interval"%string := PInt 60 ]} ]}.

(** One iteration of the [for key, value in user.items()] loop. *)
Definition merge_item (rec : gmap string pyval -> pyval -> gmap string pyval)
    (key : string) (value : pyval) (result : gmap string pyval)
  : gmap string pyval :=
  match result !! key, value with
  | Some (PDict d), PDict _ => <[key := PDict (rec d value)]> result
  | _, _ => <[key := value]> result
  end.

(** [_merge_config], recursive on the user value.  The loop runs over the
    items of [user], starting from [result = default.copy()]. *)
Fixpoint _merge_config_val (default : gmap string pyval) (user : pyval)
    {struct user} : gmap string pyval :=
  match user with
  | PDict u =>
      map_fold (merge_item _merge_config_val) default u
  | _ => default
  end.

Definition _merge_config (default user : gmap string pyval)
  : gmap string pyval :=
  _merge_config_val default (PDict user).

(** What the loop stores under a key of [user]. *)
Definition merged_entry (old : option pyval) (value : pyval) : pyval :=
  match old, value with
  | Some (PDict d), PDict u => PDict (_merge_config d u)
  | _, _ => value
  end.

(** The configuration file as [load_config] finds it. *)
Inductive config_file : Type :=
  | Missing
  | Malformed
  | Parsed (v : pyval).

(** [load_config]: the effective configuration and the file afterwards
    ([save_config] writes the defaults when the file is missing).  A
    document that is not an object makes [user.items()] raise, and the
    handler returns the defaults. *)
Definition load_config (f : config_file)
  : gmap string pyval * config_file :=
  match f with
  | Parsed (PDict user) => (_merge_config DEFAULT_CONFIG user, f)
  | Parsed _ => (DEFAULT_CONFIG, f)
  | Malformed => (DEFAULT_CONFIG, f)
  | Missing => (DEFAULT_CONFIG, Parsed (PDict DEFAULT_CONFIG))
  end.

(** The example of the specification. *)
Definition example_defaults : gmap string pyval :=
  {[ "camera"%string := PDict
       {[ "fps"%string := PInt 30;
          "res"%string := PList [PInt 1920; PInt 1080] ]} ]}.
Definition example_override : gmap string pyval :=
  {[ "camera"%string := PDict {[ "fps"%string := PInt 60 ]} ]}.
Definition example_merged : gmap string pyval :=
  {[ "camera"%string := PDict
       {[ "fps"%string := PInt 60;
          "res"%string := PList [PInt 1920; PInt 1080] ]} ]}.

End Config.

(** ** DepthAIStats *)

Module Stats.

Definition Qltb (x y : Q) : bool := negb (Qle_bool y x).

(** Python's [sum]: left to right, from the integer [0]. *)
Definition sum (l : list Q) : Q := fold_left Qplus l 0%Q.
Definition len (l : list Q) : Q := inject_Z (Z.of_nat (length l)).

Record DepthAIStats : Type := mkStats {
  start_time : Q;
  frame_count : Z;
  error_count : Z;
  last_frame_time : Q;
  fps_history : list Q;
  imu_data_count : Z;
  temperature_history : list Q
}.

(** [__init__]; the argument is the value of [time.time()]. *)
Definition __init__ (now : Q) : DepthAIStats :=
  {| start_time := now; frame_count := 0; error_count := 0;
     last_frame_time := 0%Q; fps_history := []; imu_data_count := 0;
     temperature_history := [] |}.

(** [history.append(x)], then [history.pop(0)] when the length exceeds
    [capacity]. *)
Definition push_window (capacity : nat) (x : Q) (history : list Q) : list Q :=
  let appended := history ++ [x] in
  if (capacity <? length appended)%nat then tail appended else appended.

(** [1.0 / d]: a zero divisor raises. *)
Definition float_inverse (d : Q) : result Q :=
  if Qeq_bool d 0%Q then Raise ZeroDivisionError else Ok (1 / d)%Q.

(** [update_frame_stats]; [current_time] is the value of [time.time()].
    An exception leaves the object as it was: it is raised before the
    first assignment. *)
Definition update_frame_stats (current_time : Q) (st : DepthAIStats)
  : result DepthAIStats :=
  let* history :=
    (if Qltb 0%Q (last_frame_time st) then
       let* fps := float_inverse (current_time - last_frame_time st)%Q in
       Ok (push_window 30 fps (fps_history st))
     else Ok (fps_history st)) in
  Ok {| start_time := start_time st;
        frame_count := frame_count st + 1;
        error_count := error_count st;
        last_frame_time := current_time;
        fps_history := history;
        imu_data_count := imu_data_count st;
        temperature_history := temperature_history st |}.

Definition update_imu_stats (st : DepthAIStats) : DepthAIStats :=
  {| start_time := start_time st; frame_count := frame_count st;
     error_count := error_count st; last_frame_time := last_frame_time st;
     fps_history := fps_history st;
     imu_data_count := imu_data_count st + 1;
     temperature_history := temperature_history st |}.

Definition increment_error (st : DepthAIStats) : DepthAIStats :=
  {| start_time := start_time st; frame_count := frame_count st;
     error_count := error_count st + 1;
     last_frame_time := last_frame_time st;
     fps_history := fps_history st;
     imu_data_count := imu_data_count st;
     temperature_history := temperature_history st |}.

Definition add_temperature_reading (temp_celsius : Q) (st : DepthAIStats)
  : DepthAIStats :=
  {| start_time := start_time st; frame_count := frame_count st;
     error_count := error_count st; last_frame_time := last_frame_time st;
     fps_history := fps_history st;
     imu_data_count := imu_data_count st;
     temperature_history :=
       push_window 60 temp_celsius (temperature_history st) |}.

(** The dictionary [get_stats] returns.  [uptime_formatted] and
    [last_frame_time] are kept as the numbers the source renders as text. *)
Record snapshot : Type := mkSnapshot {
  uptime_seconds : Q;
  uptime_formatted : Q;
  total_frames : Z;
  snap_error_count : Z;
  current_fps : Q;
  average_fps : Q;
  snap_imu_data_count : Z;
  average_temperature_c : option Q;
  current_temperature_c : option Q;
  snap_last_frame_time : Q
}.

Definition get_stats (now : Q) (st : DepthAIStats) : snapshot :=
  let uptime := (now - start_time st)%Q in
  let avg_fps :=
    match fps_history st with
    | [] => 0%Q
    | _ => (sum (fps_history st) / len (fps_history st))%Q
    end in
  let avg_temp :=
    match temperature_history st with
    | [] => None
    | _ => Some (sum (temperature_history st)
                 / len (temperature_history st))%Q
    end in
  {| uptime_seconds := uptime;
     uptime_formatted := uptime;
     total_frames := frame_count st;
     snap_error_count := error_count st;
     current_fps := default 0%Q (last (fps_history st));
     average_fps := avg_fps;
     snap_imu_data_count := imu_data_count st;
     average_temperature_c := avg_temp;
     current_temperature_c := last (temperature_history st);
     snap_last_frame_time := last_frame_time st |}.

(** The two optional fields as [json.dump] sees them. *)
Definition optional_float (o : option Q) : pyval :=
  match o with
  | Some q => PFloat q
  | None => PNone
  end.

(** A sequence of [update_frame_stats] calls, one per timestamp; the first
    exception ends it. *)
Fixpoint update_frames (times : list Q) (st : DepthAIStats)
  : result DepthAIStats :=
  match times with
  | [] => Ok st
  | t :: rest => let* st' := update_frame_stats t st in update_frames rest st'
  end.

(** The calls other components make on the aggregate. *)
Inductive call : Type :=
  | UpdateFrameStats (current_time : Q)
  | UpdateImuStats
  | IncrementError
  | AddTemperatureReading (temp_celsius : Q).

(** One call; a call that raises leaves the aggregate unchanged. *)
Definition perform (c : call) (st : DepthAIStats) : DepthAIStats :=
  match c with
  | UpdateFrameStats t =>
      match update_frame_stats t st with
      | Ok st' => st'
      | Raise _ => st
      end
  | UpdateImuStats => update_imu_stats st
  | IncrementError => increment_error st
  | AddTemperatureReading c => add_temperature_reading c st
  end.

Definition perform_all (cs : list call) (st : DepthAIStats) : DepthAIStats :=
  fold_left (fun s c => perform c s) cs st.

Definition is_temperature_call (c : call) : bool :=
  match c with
  | AddTemperatureReading _ => true
  | _ => false
  end.

(** Strictly increasing timestamps. *)
Fixpoint increasing (times : list Q) : Prop :=
  match times with
  | [] => True
  | t :: rest =>
      match rest with
      | [] => True
      | t' :: _ => (t < t')%Q
      end /\ increasing rest
  end.

(** The tick at the end of one iteration of [_process_frames]: the
    handler of the loop counts an exception of [update_frame_stats] as an
    error and the loop goes on. *)
Definition frame_tick (current_time : Q) (st : DepthAIStats) : DepthAIStats :=
  match update_frame_stats current_time st with
  | Ok st' => st'
  | Raise _ => increment_error st
  end.

(** The aggregate after one frame at time 1. *)
Definition after_first_frame : DepthAIStats :=
  {| start_time := 0%Q; frame_count := 1; error_count := 0;
     last_frame_time := 1%Q; fps_history := []; imu_data_count := 0;
     temperature_history := [] |}.

End Stats.

(** ** HealthMonitor._check_health *)

Module Health.
Import Stats.

Inductive health_status : Type := healthy | degraded.

(** The two messages appended to [health["issues"]]; the second carries
    the rate the source formats into the text. *)
Inductive issue : Type :=
  | LowFrameRate
  | HighErrorRate (error_rate : Q).

Record health : Type := mkHealth {
  status : health_status;
  issues : list issue
}.

Definition _check_health (stats : snapshot) : health :=
  let issues0 : list issue := [] in
  let issues1 :=
    if Qltb (current_fps stats) 1%Q && (0 <? total_frames stats)
    then issues0 ++ [LowFrameRate] else issues0 in
  let issues2 :=
    if 0 <? total_frames stats then
      let error_rate :=
        (inject_Z (snap_error_count stats)
         / inject_Z (total_frames stats))%Q in
      if Qltb (1 # 10)%Q error_rate
      then issues1 ++ [HighErrorRate error_rate] else issues1
    else issues1 in
  {| status := match issues2 with [] => healthy | _ => degraded end;
     issues := issues2 |}.

(** The rate [_check_health] computes. *)
Definition error_rate (s : snapshot) : Q :=
  (inject_Z (snap_error_count s) / inject_Z (total_frames s))%Q.

(** A snapshot with the given counters and current rate. *)
Definition snapshot_with (frames errors : Z) (fps : Q) : snapshot :=
  {| uptime_seconds := 60%Q; uptime_formatted := 60%Q; total_frames := frames;
     snap_error_count := errors; current_fps := fps; average_fps := fps;
     snap_imu_data_count := 0; average_temperature_c := None;
     current_temperature_c := None; snap_last_frame_time := 59%Q |}.

End Health.

(** ** HealthMonitor._update_status and the status path *)

Module StatusFile.
Import Stats Health.

(** The values of the dictionary [status] built by [_update_status]. *)
Inductive member : Type :=
  | MTime (t : Q)
  | MText (s : string)
  | MInt (z : Z)
  | MStats (s : snapshot)
  | MHealth (h : health).

(** The dictionary itself, in the order of its keys. *)
Definition status_document : Type := list (string * member).

(** What a reader finds at the status path. *)
Inductive content : Type :=
  | Absent
  | EmptyFile
  | Document (d : status_document).

Definition required_keys : list string :=
  ["timestamp"; "status"; "pid"; "stats"; "health"]%string.

(** The top-level keys a reader can find in the file. *)
Definition top_level_keys (c : content) : list string :=
  match c with
  | Document d => map fst d
  | _ => []
  end.

Definition has_required_keys (c : content) : bool :=
  forallb (fun k => bool_decide (k ∈ top_level_keys c)) required_keys.

(** The two file operations of a publication:
    [open(self.status_file, 'w')] creates or truncates the file, and
    [json.dump] followed by the end of the [with] block writes the text. *)
Inductive file_op : Type :=
  | OpenForWriting
  | DumpAndClose (d : status_document).

Definition apply (op : file_op) (c : content) : content :=
  match op with
  | OpenForWriting => EmptyFile
  | DumpAndClose d => Document d
  end.

(** [_update_status]: [now] is the clock, [pid] is [os.getpid()]. *)
Definition _update_status (now : Q) (pid : Z) (st : DepthAIStats)
  : list file_op :=
  let stats := get_stats now st in
  let status :=
    [ ("timestamp"%string, MTime now);
      ("status"%string, MText "running");
      ("pid"%string, MInt pid);
      ("stats"%string, MStats stats);
      ("health"%string, MHealth (_check_health stats)) ] in
  [OpenForWriting; DumpAndClose status].

(** The contents of the path after each operation, in order. *)
Fixpoint observable (ops : list file_op) (c : content) : list content :=
  match ops with
  | [] => []
  | op :: rest => apply op c :: observable rest (apply op c)
  end.

Definition publish (now : Q) (pid : Z) (st : DepthAIStats) (c : content)
  : content :=
  fold_left (fun c op => apply op c) (_update_status now pid st) c.

End StatusFile.

(** ** Configuration objects and who refers to them *)

Module Reload.
Import Config.

(** An instance of [DepthAIConfig]. *)
Record DepthAIConfig : Type := mkConfig {
  config_path : string;
  config : gmap string pyval
}.

(** [HealthMonitor] keeps the reference it was constructed with. *)
Record HealthMonitor : Type := mkMonitor {
  hm_config : nat;
  hm_running : bool
}.

Record DepthAIDaemon : Type := mkDaemon {
  d_config : nat;
  health_monitor : HealthMonitor
}.

(** The objects on the heap, by address, and the files, by path. *)
Record world : Type := mkWorld {
  objects : gmap nat DepthAIConfig;
  next_address : nat;
  files : gmap string config_file
}.

(** [DepthAIConfig(config_path)]: loads the file and allocates the object. *)
Definition DepthAIConfig__init__ (path : string) (w : world) : nat * world :=
  let '(cfg, file') := load_config (default Missing (files w !! path)) in
  let a := next_address w in
  (a, {| objects :=
           <[a := {| config_path := path; config := cfg |}]> (objects w);
         next_address := S a;
         files := <[path := file']> (files w) |}).

(** [DepthAIDaemon.__init__]: the monitor receives [self.config]. *)
Definition DepthAIDaemon__init__ (path : string) (w : world)
  : DepthAIDaemon * world :=
  let '(a, w') := DepthAIConfig__init__ path w in
  ({| d_config := a;
      health_monitor := {| hm_config := a; hm_running := true |} |}, w').

(** [_reload_config]: [self.config = DepthAIConfig(self.config.config_path)]. *)
Definition _reload_config (d : DepthAIDaemon) (w : world)
  : DepthAIDaemon * world :=
  match objects w !! d_config d with
  | Some old =>
      let '(a, w') := DepthAIConfig__init__ (config_path old) w in
      ({| d_config := a; health_monitor := health_monitor d |}, w')
  | None => (d, w)
  end.

(** [self.config.config[section][key]] as the daemon reads it. *)
Definition daemon_setting (d : DepthAIDaemon) (w : world)
    (section key : string) : option pyval :=
  match objects w !! d_config d with
  | Some c => subscript2 (config c) section key
  | None => None
  end.

(** [self.config.config[section][key]] as the health monitor reads it. *)
Definition monitor_setting (d : DepthAIDaemon) (w : world)
    (section key : string) : option pyval :=
  match objects w !! hm_config (health_monitor d) with
  | Some c => subscript2 (config c) section key
  | None => None
  end.

(** The argument of [time.sleep] in [_monitor_loop]. *)
Definition monitor_interval (d : DepthAIDaemon) (w : world) : option pyval :=
  monitor_setting d w "service" "health_check_interval".

(** The test of [_handle_rgb_frame] and [_handle_depth_frame]. *)
Definition dispatch_save_frames (d : DepthAIDaemon) (w : world)
  : option pyval :=
  daemon_setting d w "output" "save_frames".

(** A persisted file that shortens the interval and turns saving on. *)
Definition edited_file : config_file :=
  Parsed (PDict
    {[ "service"%string := PDict {[ "health_check_interval"%string := PInt 5 ]};
       "output"%string := PDict {[ "save_frames"%string := PBool true ]} ]}).

Definition empty_world : world :=
  {| objects := ∅; next_address := 0%nat; files := ∅ |}.

Definition edit_file (path : string) (f : config_file) (w : world) : world :=
  {| objects := objects w; next_address := next_address w;
     files := <[path := f]> (files w) |}.

(** Start with no file, edit the file, then deliver the reload signal. *)
Definition reload_scenario : DepthAIDaemon * world :=
  let '(d, w) :=
    DepthAIDaemon__init__ "/etc/depthai-daemon/config.json" empty_world in
  _reload_config d (edit_file "/etc/depthai-daemon/config.json" edited_file w).

End Reload.

(** ** Artifact files and the retention sweep *)

Module Artifacts.

(** A directory maps a file name to its creation time
    ([os.path.getctime]); the file system maps a path to a directory. *)
Abbreviation directory := (gmap string Q).
Abbreviation filesystem := (gmap string (gmap string Q)).

Definition ends_with (suffix s : string) : bool :=
  let n := String.length s in
  let m := String.length suffix in
  (m <=? n)%nat && String.eqb (String.substring (n - m) m s) suffix.

(** [os.path.join(a, b)] for a relative [b]. *)
Definition path_join (a b : string) : string :=
  if String.eqb a "" then b
  else if ends_with "/" a then (a ++ b)%string
  else (a ++ "/" ++ b)%string.

Fixpoint zeros (k : nat) : string :=
  match k with
  | O => ""%string
  | S k' => String "0"%char (zeros k')
  end.

(** [f"{n:06d}"] for a count that is not negative. *)
Definition format_06d (n : Z) : string :=
  let digits := pretty n in
  (zeros (6 - String.length digits) ++ digits)%string.

(** The pattern [*.jpg] on a directory entry. *)
Definition is_jpg (e : string * Q) : Prop := Is_true (ends_with ".jpg" (fst e)).

#[global] Instance is_jpg_dec (e : string * Q) : Decision (is_jpg e) :=
  Is_true_dec (ends_with ".jpg" (fst e)).

(** [Path(directory).glob("*.jpg")]: nothing for a missing directory. *)
Definition glob_jpg (path : string) (fs : filesystem) : list (string * Q) :=
  filter is_jpg (map_to_list (default ∅ (fs !! path))).

(** The order of creation times. *)
Definition ctime_le (a b : string * Q) : Prop := (snd a <= snd b)%Q.

(** [sorted(..., key=os.path.getctime)]: a stable sort, equal keys keep
    their order. *)
Fixpoint insert_by_ctime (x : string * Q) (l : list (string * Q))
  : list (string * Q) :=
  match l with
  | [] => [x]
  | y :: l' =>
      if Qle_bool (snd y) (snd x) then y :: insert_by_ctime x l'
      else x :: l
  end.

Definition sorted_by_ctime (l : list (string * Q)) : list (string * Q) :=
  fold_left (fun acc x => insert_by_ctime x acc) l [].

(** The slice [l[:stop]] of Python, for any integer [stop]. *)
Definition slice_until {A : Type} (stop : Z) (l : list A) : list A :=
  if stop <? 0 then take (Z.to_nat (Z.of_nat (length l) + stop)) l
  else take (Z.to_nat stop) l.

(** [file.unlink()] on a file of the listing. *)
Definition unlink (path : string) (fs : filesystem) (name : string)
  : filesystem :=
  match fs !! path with
  | Some d => <[path := delete name d]> fs
  | None => fs
  end.

(** Creating or overwriting a file in an existing directory; writing into
    a missing directory creates nothing. *)
Definition write_file (path name : string) (now : Q) (fs : filesystem)
  : filesystem :=
  match fs !! path with
  | Some d => <[path := <[name := now]> d]> fs
  | None => fs
  end.

(** [os.makedirs(path, exist_ok=True)]. *)
Definition makedirs (path : string) (fs : filesystem) : filesystem :=
  match fs !! path with
  | Some _ => fs
  | None => <[path := ∅]> fs
  end.

(** What a run of [unlink] calls does to one directory. *)
Definition delete_all (files : list (string * Q)) (d : gmap string Q)
  : gmap string Q :=
  fold_left (fun d' file => delete (fst file) d') files d.

(** [_cleanup_old_files]; with a [max_files] that is not an integer the
    comparison or the slice raises and the handler only logs. *)
Definition _cleanup_old_files (cfg : gmap string pyval) (path : string)
    (fs : filesystem) : filesystem :=
  match subscript2 cfg "output" "max_files" ≫= python_int with
  | Some max_files =>
      let files := sorted_by_ctime (glob_jpg path fs) in
      if max_files <? Z.of_nat (length files) then
        let files_to_remove := slice_until (- max_files) files in
        fold_left (fun fs' file => unlink path fs' (fst file))
                  files_to_remove fs
      else fs
  | None => fs
  end.

(** [_save_frame]: [timestamp] is the formatted clock, [now] the creation
    time the file receives. *)
Definition _save_frame (cfg : gmap string pyval)
    (frame_type timestamp : string) (frame_count : Z) (now : Q)
    (fs : filesystem) : filesystem :=
  match subscript2 cfg "output" "output_directory" with
  | Some (PStr output_dir) =>
      let filename :=
        (frame_type ++ "_" ++ timestamp ++ "_"
         ++ format_06d frame_count ++ ".jpg")%string in
      _cleanup_old_files cfg output_dir
        (write_file output_dir filename now fs)
  | _ => fs
  end.

(** [_save_imu_data]: the file is written and nothing else follows; the
    text of the packet plays no part in what the directory holds. *)
Definition _save_imu_data (cfg : gmap string pyval) (timestamp : string)
    (now : Q) (fs : filesystem) : filesystem :=
  match subscript2 cfg "output" "output_directory" with
  | Some (PStr output_dir) =>
      let imu_dir := path_join output_dir "imu" in
      let filename := ("imu_" ++ timestamp ++ ".json")%string in
      write_file imu_dir filename now (makedirs imu_dir fs)
  | _ => fs
  end.

(** The number of entries of a directory. *)
Definition file_count (path : string) (fs : filesystem) : nat :=
  size (default ∅ (fs !! path)).

Definition file_names (path : string) (fs : filesystem) : gset string :=
  dom (default ∅ (fs !! path)).

(** A configuration with the given [max_files], saving under [/data]. *)
Definition config_with_max (max_files : Z) : gmap string pyval :=
  Config._merge_config Config.DEFAULT_CONFIG
    {[ "output"%string := PDict
         {[ "save_frames"%string := PBool true;
            "output_directory"%string := PStr "/data";
            "max_files"%string := PInt max_files ]} ]}.

(** Eight frames in a row, one per second. *)
Definition eight : list (string * Z * Q) :=
  [ ("20240101_000001", 0, 1%Q); ("20240101_000002", 1, 2%Q);
    ("20240101_000003", 2, 3%Q); ("20240101_000004", 3, 4%Q);
    ("20240101_000005", 4, 5%Q); ("20240101_000006", 5, 6%Q);
    ("20240101_000007", 6, 7%Q); ("20240101_000008", 7, 8%Q) ]%string.

Definition save_frames (cfg : gmap string pyval)
    (saves : list (string * Z * Q)) (fs : filesystem) : filesystem :=
  fold_left (fun fs' s => _save_frame cfg "rgb" (fst (fst s)) (snd (fst s))
                            (snd s) fs') saves fs.

(** Eight packets in a row, a tenth of a second apart. *)
Definition eight_packets : list (string * Q) :=
  [ ("20240101_000001_000000", 1%Q); ("20240101_000001_100000", 11 # 10);
    ("20240101_000001_200000", 12 # 10); ("20240101_000001_300000", 13 # 10);
    ("20240101_000001_400000", 14 # 10); ("20240101_000001_500000", 15 # 10);
    ("20240101_000001_600000", 16 # 10); ("20240101_000001_700000", 17 # 10)
  ]%string.

Definition save_imu_packets (cfg : gmap string pyval)
    (saves : list (string * Q)) (fs : filesystem) : filesystem :=
  fold_left (fun fs' s => _save_imu_data cfg (fst s) (snd s) fs') saves fs.

(** The output directory exists and is empty. *)
Definition fresh_filesystem : filesystem := {[ "/data"%string := ∅ ]}.

End Artifacts.

(** ** DepthAIDaemon.run: the reconnect loop *)

Module Supervisor.
Import Stats.

(** Truth value of a Python object. *)
Definition truthy (v : pyval) : bool :=
  match v with
  | PNone => false
  | PBool b => b
  | PInt z => negb (z =? 0)
  | PFloat q => negb (Qeq_bool q 0%Q)
  | PStr s => negb (String.eqb s "")
  | PList l => negb (Nat.eqb (length l) 0)
  | PDict d => negb (Nat.eqb (size d) 0)
  end.

(** [n < v] for an integer [n]; comparing with a value that is not a
    number raises. *)
Definition int_lt (n : Z) (v : pyval) : result bool :=
  match v with
  | PInt z => Ok (n <? z)
  | PFloat q => Ok (Qltb (inject_Z n) q)
  | PBool b => Ok (n <? (if b then 1 else 0))
  | _ => Raise TypeError
  end.

(** [cfg[section][key]]. *)
Definition setting (cfg : gmap string pyval) (section key : string)
  : result pyval :=
  match subscript2 cfg section key with
  | Some v => Ok v
  | None => Raise KeyError
  end.

(** [features.get(key, False)]: the receiver may be [None], which has no
    [get]. *)
Definition features_get (features : option (gmap string bool))
    (key : string) : result bool :=
  match features with
  | Some d => Ok (default false (d !! key))
  | None => Raise AttributeError
  end.

(** What the device, the SDK and the signals do during one pass of the
    loop.  [stream] describes [_process_frames]: the calls it makes on the
    statistics before a termination signal ends it, or [None] when no
    signal ever comes. *)
Record pass : Type := mkPass {
  pipeline_fails : bool;
  connects : bool;
  imu_node_available : bool;
  camera_sockets : list string;
  chip_temperature : option Q;
  stream : option (list call);
  signal_in_pass : bool;
  signal_in_delay : bool
}.

Inductive log_line : Type :=
  | DaemonStarting
  | CreatingPipeline
  | ConnectingToDevice
  | ConnectedToDevice
  | StartingFrameProcessing
  | DeviceErrorAttempt (attempt : Z)
  | RetryingIn (delay : pyval)
  | MaxAttemptsOrShutdown
  | DaemonStopped.

Record daemon : Type := mkDaemon {
  running : bool;
  available_features : option (gmap string bool);
  stats : DepthAIStats;
  monitoring : bool;
  reconnect_attempts : Z;
  log : list log_line
}.

Definition say (l : log_line) (d : daemon) : daemon :=
  {| running := running d; available_features := available_features d;
     stats := stats d; monitoring := monitoring d;
     reconnect_attempts := reconnect_attempts d; log := log d ++ [l] |}.

Definition set_running (b : bool) (d : daemon) : daemon :=
  {| running := b; available_features := available_features d;
     stats := stats d; monitoring := monitoring d;
     reconnect_attempts := reconnect_attempts d; log := log d |}.

Definition set_features (f : option (gmap string bool)) (d : daemon) : daemon :=
  {| running := running d; available_features := f;
     stats := stats d; monitoring := monitoring d;
     reconnect_attempts := reconnect_attempts d; log := log d |}.

Definition set_stats (s : DepthAIStats) (d : daemon) : daemon :=
  {| running := running d; available_features := available_features d;
     stats := s; monitoring := monitoring d;
     reconnect_attempts := reconnect_attempts d; log := log d |}.

Definition set_monitoring (b : bool) (d : daemon) : daemon :=
  {| running := running d; available_features := available_features d;
     stats := stats d; monitoring := b;
     reconnect_attempts := reconnect_attempts d; log := log d |}.

Definition set_attempts (n : Z) (d : daemon) : daemon :=
  {| running := running d; available_features := available_features d;
     stats := stats d; monitoring := monitoring d;
     reconnect_attempts := n; log := log d |}.

(** [DepthAIDaemon.__init__]. *)
Definition __init__ (now : Q) : daemon :=
  {| running := true;
     available_features :=
       Some {[ "imu"%string := false; "depth"%string := true;
               "rgb"%string := true; "ir"%string := false ]};
     stats := Stats.__init__ now; monitoring := false;
     reconnect_attempts := 0; log := [] |}.

Definition mentions (needle : string) (sockets : list string) : bool :=
  existsb (fun s =>
    match String.index 0 needle s with Some _ => true | None => false end)
    sockets.

(** [_detect_device_features]: the dictionary [features] is filled in and
    the body ends; there is no [return], so the call evaluates to [None]. *)
Definition _detect_device_features (p : pass) : option (gmap string bool) :=
  let features : gmap string bool :=
    {[ "imu"%string := false; "depth"%string := true; "rgb"%string := true;
       "ir"%string := false; "temperature"%string := false ]} in
  let features := <["imu"%string := imu_node_available p]> features in
  let features :=
    if mentions "LEFT" (camera_sockets p) || mentions "RIGHT" (camera_sockets p)
    then <["depth"%string := true]> features else features in
  let features :=
    if mentions "RGB" (camera_sockets p)
    then <["rgb"%string := true]> features else features in
  let features :=
    <["temperature"%string := default false (features !! "imu"%string)]>
      features in
  None.

(** The streams of the pipeline [_create_pipeline] builds. *)
Record pipeline : Type := mkPipeline {
  has_depth : bool;
  has_detections : bool;
  has_imu : bool
}.

Definition _create_pipeline (cfg : gmap string pyval) (p : pass)
    (features : option (gmap string bool)) : result pipeline :=
  if pipeline_fails p then Raise DeviceError else
  let* _ := setting cfg "camera" "preview_size" in
  let* _ := setting cfg "camera" "rgb_resolution" in
  let* _ := setting cfg "camera" "rgb_fps" in
  let* depth_enabled := setting cfg "camera" "depth_enabled" in
  let* model_enabled := setting cfg "ai" "model_enabled" in
  let* nn :=
    (if truthy model_enabled then
       let* model_path := setting cfg "ai" "model_path" in
       Ok (truthy model_path)
     else Ok false) in
  let* _ :=
    (if nn then setting cfg "ai" "confidence_threshold" else Ok PNone) in
  let* imu_enabled := setting cfg "camera" "imu_enabled" in
  let* imu :=
    (if truthy imu_enabled then features_get features "imu" else Ok false) in
  Ok {| has_depth := truthy depth_enabled; has_detections := nn;
        has_imu := imu |}.

(** How the [try] block of one pass ends. *)
Inductive block_end : Type :=
  | Returned
  | Raised (e : exn)
  | NeverReturns.

(** [_process_frames]: loops while [self.running]. *)
Definition _process_frames (p : pass) (d : daemon) : daemon * block_end :=
  if running d then
    match stream p with
    | Some calls =>
        (set_running false (set_stats (perform_all calls (stats d)) d),
         Returned)
    | None => (d, NeverReturns)
    end
  else (d, Returned).

(** The body of the [try] statement. *)
Definition try_block (cfg : gmap string pyval) (p : pass) (d : daemon)
  : daemon * block_end :=
  let d := say CreatingPipeline d in
  match _create_pipeline cfg p (available_features d) with
  | Raise e => (d, Raised e)
  | Ok _ =>
  let d := say ConnectingToDevice d in
  let d := if signal_in_pass p then set_running false d else d in
  if negb (connects p) then (d, Raised DeviceError) else
  let d := say ConnectedToDevice d in
  let d := set_features (_detect_device_features p) d in
  match features_get (available_features d) "temperature" with
  | Raise e => (d, Raised e)
  | Ok has_temperature =>
  let d :=
    match has_temperature, chip_temperature p with
    | true, Some t => set_stats (add_temperature_reading t (stats d)) d
    | _, _ => d
    end in
  match setting cfg "camera" "depth_enabled" with
  | Raise e => (d, Raised e)
  | Ok _ =>
  match setting cfg "ai" "model_enabled" with
  | Raise e => (d, Raised e)
  | Ok _ =>
  match (let* imu_enabled := setting cfg "camera" "imu_enabled" in
         if truthy imu_enabled
         then features_get (available_features d) "imu" else Ok false) with
  | Raise e => (d, Raised e)
  | Ok _ =>
  let d := say StartingFrameProcessing d in
  let d := set_attempts 0 d in
  _process_frames p d
  end end end end end.

(** How [run] ends, as far as the passes given describe it. *)
Inductive outcome : Type :=
  | Stopped (d : daemon)
  | Crashed (e : exn) (d : daemon)
  | StillStreaming (d : daemon)
  | StillLooping (d : daemon).

Definition finish (d : daemon) : outcome :=
  Stopped (say DaemonStopped (set_monitoring false d)).

(** The first statements of the handler: count the attempt, log it, count
    the error. *)
Definition after_error (d : daemon) : daemon :=
  let d := set_attempts (reconnect_attempts d + 1) d in
  let d := say (DeviceErrorAttempt (reconnect_attempts d)) d in
  set_stats (increment_error (stats d)) d.

(** The retry branch of the handler: log, then [time.sleep], during
    which a termination signal may arrive. *)
Definition before_retry (reconnect_delay : pyval) (p : pass) (d : daemon)
  : daemon :=
  let d := say (RetryingIn reconnect_delay) d in
  if signal_in_delay p then set_running false d else d.

(** The [while] loop; [max_attempts] and [reconnect_delay] were read
    before it. *)
Fixpoint loop (cfg : gmap string pyval) (max_attempts reconnect_delay : pyval)
    (passes : list pass) (d : daemon) : outcome :=
  match (if running d then int_lt (reconnect_attempts d) max_attempts
         else Ok false) with
  | Raise e => Crashed e d
  | Ok false => finish d
  | Ok true =>
      match passes with
      | [] => StillLooping d
      | p :: rest =>
          match try_block cfg p d with
          | (d, Returned) => loop cfg max_attempts reconnect_delay rest d
          | (d, NeverReturns) => StillStreaming d
          | (d, Raised _) =>
              let d := after_error d in
              match int_lt (reconnect_attempts d) max_attempts with
              | Raise e => Crashed e d
              | Ok below =>
                  if below && running d then
                    loop cfg max_attempts reconnect_delay rest
                         (before_retry reconnect_delay p d)
                  else finish (say MaxAttemptsOrShutdown d)
              end
          end
      end
  end.

Definition run (cfg : gmap string pyval) (passes : list pass) (d : daemon)
  : outcome :=
  let d := set_monitoring true (say DaemonStarting d) in
  let d := set_attempts 0 d in
  match setting cfg "service" "max_reconnect_attempts" with
  | Raise e => Crashed e d
  | Ok max_attempts =>
      match setting cfg "service" "reconnect_delay" with
      | Raise e => Crashed e d
      | Ok reconnect_delay => loop cfg max_attempts reconnect_delay passes d
      end
  end.

(** Observations on an outcome. *)
Definition final (o : outcome) : daemon :=
  match o with
  | Stopped d | Crashed _ d | StillStreaming d | StillLooping d => d
  end.

Definition is_line (l l' : log_line) : bool :=
  match l, l' with
  | CreatingPipeline, CreatingPipeline => true
  | StartingFrameProcessing, StartingFrameProcessing => true
  | MaxAttemptsOrShutdown, MaxAttemptsOrShutdown => true
  | DaemonStopped, DaemonStopped => true
  | _, _ => false
  end.

Definition count_lines (l : log_line) (d : daemon) : nat :=
  length (List.filter (is_line l) (log d)).

Definition stopped (o : outcome) : bool :=
  match o with
  | Stopped _ => true
  | _ => false
  end.

(** The number of passes begun and of streaming phases begun. *)
Definition attempts_started (o : outcome) : nat :=
  count_lines CreatingPipeline (final o).
Definition streaming_started (o : outcome) : nat :=
  count_lines StartingFrameProcessing (final o).

(** Where a pass stands when its [try] block has raised. *)
Record pass_effect (d d' : daemon) : Prop := mkEffect {
  same_attempts : reconnect_attempts d' = reconnect_attempts d;
  one_more_pass :
    count_lines CreatingPipeline d' = S (count_lines CreatingPipeline d);
  no_streaming :
    count_lines StartingFrameProcessing d'
    = count_lines StartingFrameProcessing d;
  no_verdict :
    count_lines MaxAttemptsOrShutdown d'
    = count_lines MaxAttemptsOrShutdown d;
  stop_only : running d' = true -> running d = true
}.

(** No termination signal arrives during the pass. *)
Definition quiet (p : pass) : Prop :=
  signal_in_pass p = false /\ signal_in_delay p = false.

(** A configuration file that sets [max_reconnect_attempts]. *)
Definition config_with_attempts (n : Z) : gmap string pyval :=
  Config._merge_config Config.DEFAULT_CONFIG
    {[ "service"%string := PDict
         {[ "max_reconnect_attempts"%string := PInt n ]} ]}.

(** A pass in which the device cannot be opened, and one in which it is. *)
Definition connect_failure : pass :=
  {| pipeline_fails := false; connects := false;
     imu_node_available := false; camera_sockets := [];
     chip_temperature := None; stream := None;
     signal_in_pass := false; signal_in_delay := false |}.

Definition connect_success : pass :=
  {| pipeline_fails := false; connects := true;
     imu_node_available := true;
     camera_sockets := ["CameraBoardSocket.RGB"; "CameraBoardSocket.LEFT";
                        "CameraBoardSocket.RIGHT"]%string;
     chip_temperature := Some (45 # 1); stream := None;
     signal_in_pass := false; signal_in_delay := false |}.

End Supervisor.

From Stdlib Require Import Qround.

(** ** A measure on values, for induction through nested dictionaries *)

Module Measure.

(** The depth of dictionary nesting below a value, counted in entries. *)
Fixpoint pyval_size (v : pyval) : nat :=
  match v with
  | PDict d => S (map_fold (fun _ v' acc => (pyval_size v' + acc)%nat) 0%nat d)
  | _ => 0%nat
  end.

End Measure.

(** ** Sequences of statistics calls *)

Module StatsRuns.
Import Stats.

(** A run of appends on one window. *)
Definition push_all (capacity : nat) (xs history : list Q) : list Q :=
  fold_left (fun h x => push_window capacity x h) xs history.

(** The temperatures a sequence of calls records, in order. *)
Definition readings (cs : list call) : list Q :=
  omap (fun c => match c with
                 | AddTemperatureReading t => Some t
                 | _ => None
                 end) cs.

(** The rates of consecutive frames: the inverses of the gaps. *)
Fixpoint rates (previous : Q) (times : list Q) : list Q :=
  match times with
  | [] => []
  | t :: rest => (1 / (t - previous))%Q :: rates t rest
  end.

Definition is_error_call (c : call) : bool :=
  match c with IncrementError => true | _ => false end.
Definition is_imu_call (c : call) : bool :=
  match c with UpdateImuStats => true | _ => false end.
Definition is_frame_call (c : call) : bool :=
  match c with UpdateFrameStats _ => true | _ => false end.

Definition count_calls (f : call -> bool) (cs : list call) : Z :=
  Z.of_nat (length (List.filter f cs)).


End StatsRuns.

(** ** The Python client: [python_client.py] *)

Module Client.
Import Config Stats Health StatusFile.

(** [status.get(key)] on the status dictionary. *)
Fixpoint assoc (key : string) (d : status_document) : option member :=
  match d with
  | [] => None
  | (k, v) :: rest => if String.eqb k key then Some v else assoc key rest
  end.

(** [get_status]: [None] when the file is missing or does not parse. *)
Definition get_status (c : content) : option status_document :=
  match c with
  | Document d => Some d
  | _ => None
  end.

(** [status.get('health', {}).get('status')]: a value that is not a
    dictionary has no [get]. *)
Definition health_status_of (m : option member)
  : result (option health_status) :=
  match m with
  | None => Ok None
  | Some (MHealth h) => Ok (Some (status h))
  | Some (MStats _) => Ok None
  | Some _ => Raise AttributeError
  end.

(** [is_healthy], as the truth value of what it returns. *)
Definition is_healthy (c : content) : result bool :=
  match get_status c with
  | None => Ok false
  | Some [] => Ok false
  | Some d =>
      let* h := health_status_of (assoc "health" d) in
      match h with
      | Some healthy =>
          Ok (match assoc "status" d with
              | Some (MText s) => String.eqb s "running"
              | _ => false
              end)
      | _ => Ok false
      end
  end.


(** [_deep_merge], the client's own recursive merge. *)
Fixpoint _deep_merge_val (dict1 : gmap string pyval) (dict2 : pyval)
    {struct dict2} : gmap string pyval :=
  match dict2 with
  | PDict u => map_fold (merge_item _deep_merge_val) dict1 u
  | _ => dict1
  end.

Definition _deep_merge (dict1 dict2 : gmap string pyval)
  : gmap string pyval :=
  _deep_merge_val dict1 (PDict dict2).



(** Python's [//] and [%] on floats, as exact rationals, for a divisor
    that is not zero; [int] of a float rounds towards zero. *)
Definition floordiv (x y : Q) : Q := inject_Z (Qfloor (x / y)).
Definition float_mod (x y : Q) : Q := x - y * inject_Z (Qfloor (x / y)).
Definition int_of_float (x : Q) : Z :=
  if Qle_bool 0 x then Qfloor x else Qceiling x.

(** The four numbers [format_uptime] computes first. *)
Record uptime : Type := mkUptime {
  days : Z;
  hours : Z;
  minutes : Z;
  secs : Z
}.

Definition uptime_fields (seconds : Q) : uptime :=
  {| days := int_of_float (floordiv seconds 86400);
     hours := int_of_float (floordiv (float_mod seconds 86400) 3600);
     minutes := int_of_float (floordiv (float_mod seconds 3600) 60);
     secs := int_of_float (float_mod seconds 60) |}.

(** [sep.join(parts)]. *)
Definition join (sep : string) (parts : list string) : string :=
  match parts with
  | [] => EmptyString
  | part :: rest => fold_left (fun s p => s +:+ sep +:+ p) rest part
  end.

(** [format_uptime]. *)
Definition format_uptime (seconds : Q) : string :=
  let f := uptime_fields seconds in
  let parts : list string := [] in
  let parts :=
    if 0 <? days f then parts ++ [pretty (days f) +:+ "d"] else parts in
  let parts :=
    if 0 <? hours f then parts ++ [pretty (hours f) +:+ "h"] else parts in
  let parts :=
    if 0 <? minutes f then parts ++ [pretty (minutes f) +:+ "m"]
    else parts in
  let parts := parts ++ [pretty (secs f) +:+ "s"] in
  join " " parts.

End Client.

(** ** Looking into the file system *)

Module Files.
Import Artifacts.

(** The creation time of a file, [None] when the directory or the file
    is missing. *)
Definition ctime_of (path name : string) (fs : filesystem) : option Q :=
  match fs !! path with
  | Some d => d !! name
  | None => None
  end.

(** The name [_save_frame] gives a frame. *)
Definition frame_name (frame_type timestamp : string) (frame_count : Z)
  : string :=
  (frame_type ++ "_" ++ timestamp ++ "_"
   ++ format_06d frame_count ++ ".jpg")%string.

(** The name [_save_imu_data] gives a packet. *)
Definition imu_name (timestamp : string) : string :=
  ("imu_" ++ timestamp ++ ".json")%string.

End Files.

(** ** The dispatch loop: [_process_frames] and its handlers *)

Module Dispatch.
Import Stats Artifacts Supervisor.

(** What one pass over the queues finds.  A frame or a packet comes with
    the formatted clock and the creation time its file would get; [tick] is
    the clock [update_frame_stats] reads.  The calls into the SDK are taken
    to return. *)
Record poll : Type := mkPoll {
  rgb : option (string * Q);
  depth : option (string * Q);
  detections : option nat;
  imu : option (list (string * Q));
  tick : Q
}.

(** The statistics, the file system and the local [frame_count]. *)
Record dispatch : Type := mkDispatch {
  d_stats : DepthAIStats;
  d_fs : filesystem;
  d_frame_count : Z
}.

(** [_handle_rgb_frame] and [_handle_depth_frame]: the frame is saved under
    its type when [save_frames] is true. *)
Definition _handle_frame (cfg : gmap string pyval) (frame_type : string)
    (frame : string * Q) (frame_count : Z) (fs : filesystem)
  : result filesystem :=
  let* save_frames := setting cfg "output" "save_frames" in
  Ok (if truthy save_frames
      then _save_frame cfg frame_type (fst frame) frame_count (snd frame) fs
      else fs).

(** [_handle_imu_data]: each packet is counted, then saved when
    [save_frames] is true; what was done before an exception stays done. *)
Fixpoint _handle_imu_data (cfg : gmap string pyval)
    (packets : list (string * Q)) (st : DepthAIStats) (fs : filesystem)
  : DepthAIStats * filesystem * result unit :=
  match packets with
  | [] => (st, fs, Ok tt)
  | packet :: rest =>
      let st := update_imu_stats st in
      match setting cfg "output" "save_frames" with
      | Raise e => (st, fs, Raise e)
      | Ok save_frames =>
          _handle_imu_data cfg rest st
            (if truthy save_frames
             then _save_imu_data cfg (fst packet) (snd packet) fs
             else fs)
      end
  end.

(** The body of the [try] statement of one iteration. *)
Definition try_iteration (cfg : gmap string pyval) (queues : gset string)
    (p : poll) (s : dispatch) : dispatch * result unit :=
  let fs0 := d_fs s in
  match (match rgb p with
         | Some frame =>
             if decide ("rgb"%string ∈ queues)
             then _handle_frame cfg "rgb" frame (d_frame_count s) fs0
             else Ok fs0
         | None => Ok fs0
         end) with
  | Raise e => (s, Raise e)
  | Ok fs1 =>
  match (match depth p with
         | Some frame =>
             if decide ("depth"%string ∈ queues)
             then _handle_frame cfg "depth" frame (d_frame_count s) fs1
             else Ok fs1
         | None => Ok fs1
         end) with
  | Raise e =>
      ({| d_stats := d_stats s; d_fs := fs1;
          d_frame_count := d_frame_count s |}, Raise e)
  | Ok fs2 =>
  match (match imu p with
         | Some packets =>
             if decide ("imu"%string ∈ queues)
             then _handle_imu_data cfg packets (d_stats s) fs2
             else (d_stats s, fs2, Ok tt)
         | None => (d_stats s, fs2, Ok tt)
         end) with
  | (st3, fs3, Raise e) =>
      ({| d_stats := st3; d_fs := fs3;
          d_frame_count := d_frame_count s |}, Raise e)
  | (st3, fs3, Ok _) =>
  match update_frame_stats (tick p) st3 with
  | Raise e =>
      ({| d_stats := st3; d_fs := fs3;
          d_frame_count := d_frame_count s |}, Raise e)
  | Ok st4 =>
      ({| d_stats := st4; d_fs := fs3;
          d_frame_count := d_frame_count s + 1 |}, Ok tt)
  end end end end.

(** One iteration of the [while] loop: an exception is logged and
    counted, and the loop goes on. *)
Definition iteration (cfg : gmap string pyval) (queues : gset string)
    (p : poll) (s : dispatch) : dispatch :=
  match try_iteration cfg queues p s with
  | (s', Ok _) => s'
  | (s', Raise _) =>
      {| d_stats := increment_error (d_stats s'); d_fs := d_fs s';
         d_frame_count := d_frame_count s' |}
  end.

(** [_process_frames] over the polls made while [self.running] holds. *)
Definition _process_frames (cfg : gmap string pyval) (queues : gset string)
    (polls : list poll) (st : DepthAIStats) (fs : filesystem) : dispatch :=
  fold_left (fun s p => iteration cfg queues p s) polls
    {| d_stats := st; d_fs := fs; d_frame_count := 0 |}.

(** The packets a poll hands to [_handle_imu_data]. *)
Definition packets_of (queues : gset string) (p : poll) : list (string * Q) :=
  match imu p with
  | Some packets => if decide ("imu"%string ∈ queues) then packets else []
  | None => []
  end.

(** What one iteration adds to the counters. *)
Record counted (queues : gset string) (p : poll) (s s' : dispatch) : Prop :=
  mkCounted {
    one_tick :
      frame_count (d_stats s') + error_count (d_stats s')
      = frame_count (d_stats s) + error_count (d_stats s) + 1;
    packets_counted :
      imu_data_count (d_stats s')
      = imu_data_count (d_stats s)
        + Z.of_nat (length (packets_of queues p));
    local_count :
      d_frame_count s' - frame_count (d_stats s')
      = d_frame_count s - frame_count (d_stats s)
  }.

End Dispatch.


Module SupervisorRuns.
Import Stats Supervisor.

(** What the loop has counted when it returns. *)
Record accounted (m : Z) (d d' : daemon) : Prop := mkAccounted {
  monitor_stopped : monitoring d' = false;
  never_streams :
    count_lines StartingFrameProcessing d'
    = count_lines StartingFrameProcessing d;
  passes_bounded :
    Z.of_nat (count_lines CreatingPipeline d')
    <= Z.of_nat (count_lines CreatingPipeline d)
       + Z.max 0 (m - reconnect_attempts d);
  passes_begun :
    (count_lines CreatingPipeline d <= count_lines CreatingPipeline d')%nat;
  errors_counted :
    error_count (stats d') - error_count (stats d)
    = Z.of_nat (count_lines CreatingPipeline d')
      - Z.of_nat (count_lines CreatingPipeline d);
  attempts_counted :
    reconnect_attempts d' - reconnect_attempts d
    = Z.of_nat (count_lines CreatingPipeline d')
      - Z.of_nat (count_lines CreatingPipeline d);
  frames_untouched : frame_count (stats d') = frame_count (stats d)
}.

End SupervisorRuns.

(** * Properties *)

(** ** Configuration merge *)

Module ConfigFacts.
Import Config.

Lemma merge_config_unfold (default user : gmap string pyval) :
  _merge_config default user
  = map_fold (merge_item _merge_config_val) default user.
Proof. reflexivity. Qed.

Lemma merge_item_entry (key : string) (value : pyval)
    (result : gmap string pyval) :
  merge_item _merge_config_val key value result
  = <[key := merged_entry (result !! key) value]> result.
Proof.
  unfold merge_item, merged_entry.
  destruct (result !! key) as [[]|]; destruct value; reflexivity.
Qed.

(** The merged dictionary, key by key. *)
Lemma merge_config_lookup (default user : gmap string pyval) (k : string) :
  _merge_config default user !! k
  = match user !! k with
    | Some v => Some (merged_entry (default !! k) v)
    | None => default !! k
    end.
Proof.
  rewrite merge_config_unfold. revert k.
  apply (map_fold_weak_ind
           (fun (r m : gmap string pyval) => forall k : string,
              r !! k = match m !! k with
                       | Some v => Some (merged_entry (default !! k) v)
                       | None => default !! k
                       end)).
  - intros k. rewrite lookup_empty. reflexivity.
  - intros i x m r Hi IH k.
    rewrite merge_item_entry.
    destruct (decide (i = k)) as [->|Hne].
    + rewrite !lookup_insert_eq. rewrite (IH k), Hi. reflexivity.
    + rewrite !lookup_insert_ne by assumption. apply IH.
Qed.

Lemma merge_keeps_default_keys (default user : gmap string pyval) :
  dom default ⊆ dom (_merge_config default user).
Proof.
  intros k Hk. apply elem_of_dom. apply elem_of_dom in Hk.
  rewrite merge_config_lookup. destruct (user !! k); [eauto | assumption].
Qed.

Lemma merge_dom (default user : gmap string pyval) :
  dom (_merge_config default user) = dom default ∪ dom user.
Proof.
  apply set_eq. intros k.
  rewrite elem_of_union, !elem_of_dom, merge_config_lookup.
  destruct (user !! k) eqn:Hu.
  - split; [intros _; right; eauto | eauto].
  - split; [intros H; left; exact H|].
    intros [H|[? H]]; [exact H | discriminate].
Qed.

(** C5.  For all default and user dictionaries: every key of the default
    is a key of the merged dictionary; under a key of the user dictionary
    the merged value is the recursive merge when both sides are
    dictionaries and the user value otherwise; a key the user dictionary
    lacks keeps its default; and the example of the camera section gives
    fps 60 with the resolution kept. *)
Theorem C5_merge_config (default user : gmap string pyval) :
  (forall k, is_Some (default !! k) ->
             is_Some (_merge_config default user !! k))
  /\ (forall k d u, default !! k = Some (PDict d) ->
                    user !! k = Some (PDict u) ->
        _merge_config default user !! k = Some (PDict (_merge_config d u)))
  /\ (forall k v, user !! k = Some v ->
                  (forall d, default !! k <> Some (PDict d))
                  \/ (forall u, v <> PDict u) ->
        _merge_config default user !! k = Some v)
  /\ (forall k, user !! k = None ->
        _merge_config default user !! k = default !! k)
  /\ _merge_config example_defaults example_override = example_merged.
Proof.
  split; [|split; [|split; [|split]]].
  - intros k Hk. rewrite merge_config_lookup.
    destruct (user !! k); [eauto | assumption].
  - intros k d u Hd Hu. rewrite merge_config_lookup, Hu, Hd. reflexivity.
  - intros k v Hu Hleaf. rewrite merge_config_lookup, Hu.
    unfold merged_entry.
    destruct (default !! k) as [[]|] eqn:Hd; try reflexivity.
    destruct v; try reflexivity.
    destruct Hleaf as [H|H]; [exfalso; eapply H; reflexivity
                             | exfalso; eapply H; reflexivity].
  - intros k Hu. rewrite merge_config_lookup, Hu. reflexivity.
  - vm_compute. reflexivity.
Qed.

(** Every section and every key of the built-in defaults survives the
    loading of a file, whatever the file holds at the top level. *)
Lemma load_config_sections (f : config_file) (k : string) :
  is_Some (DEFAULT_CONFIG !! k) -> is_Some (fst (load_config f) !! k).
Proof.
  intros Hk. destruct f as [| |[]]; simpl; try assumption.
  rewrite merge_config_lookup. destruct (d !! k); [eauto | assumption].
Qed.

End ConfigFacts.


(** ** Statistics *)

Module StatsFacts.
Import Stats.

Lemma Qltb_lt (x y : Q) : Qltb x y = true <-> (x < y)%Q.
Proof.
  unfold Qltb. rewrite negb_true_iff. split.
  - intros H. apply Qnot_le_lt. intros Hle.
    apply Qle_bool_iff in Hle. congruence.
  - intros H. destruct (Qle_bool y x) eqn:E; [|reflexivity].
    apply Qle_bool_iff in E. lra.
Qed.

Lemma Qltb_ge (x y : Q) : Qltb x y = false <-> (y <= x)%Q.
Proof.
  unfold Qltb. rewrite negb_false_iff. apply Qle_bool_iff.
Qed.

Lemma push_window_length (capacity : nat) (x : Q) (history : list Q) :
  (length history <= capacity)%nat ->
  (length (push_window capacity x history) <= capacity)%nat.
Proof.
  intros H. unfold push_window.
  assert (Hl : length (history ++ [x]) = S (length history))
    by (rewrite length_app; simpl; lia).
  destruct (Nat.ltb_spec capacity (length (history ++ [x]))) as [Hlt|Hge].
  - destruct (history ++ [x]) eqn:E; simpl in *; lia.
  - exact Hge.
Qed.

(** The newest entry is the last one of the window. *)
Lemma push_window_last (capacity : nat) (x : Q) (history : list Q) :
  (0 < capacity)%nat -> last (push_window capacity x history) = Some x.
Proof.
  intros Hc. unfold push_window.
  destruct (Nat.ltb_spec capacity (length (history ++ [x]))) as [Hlt|Hge].
  - rewrite length_app in Hlt. simpl in Hlt.
    destruct history as [|h history]; simpl in *; [lia|].
    apply last_snoc.
  - apply last_snoc.
Qed.

(** On overflow it is the oldest entry that leaves. *)
Lemma push_window_full (x oldest : Q) (history : list Q) (capacity : nat) :
  length (oldest :: history) = capacity ->
  push_window capacity x (oldest :: history) = history ++ [x].
Proof.
  intros H. unfold push_window.
  destruct (Nat.ltb_spec capacity (length ((oldest :: history) ++ [x])))
    as [Hlt|Hge]; [reflexivity|].
  rewrite length_app in Hge. simpl in *. lia.
Qed.

(** A call whose timestamp differs from the previous one succeeds. *)
Lemma update_frame_stats_ok (t : Q) (st : DepthAIStats) :
  (last_frame_time st <= 0 \/ last_frame_time st < t)%Q ->
  exists st',
    update_frame_stats t st = Ok st'
    /\ frame_count st' = frame_count st + 1
    /\ last_frame_time st' = t
    /\ temperature_history st' = temperature_history st
    /\ ((length (fps_history st) <= 30)%nat ->
        (length (fps_history st') <= 30)%nat).
Proof.
  intros H. unfold update_frame_stats.
  destruct (Qltb 0 (last_frame_time st)) eqn:Hpos.
  - apply Qltb_lt in Hpos.
    assert (Hlt : (last_frame_time st < t)%Q) by (destruct H; lra).
    unfold float_inverse.
    destruct (Qeq_bool (t - last_frame_time st) 0) eqn:Hz.
    + exfalso. apply Qeq_bool_iff in Hz. lra.
    + simpl. eexists. split; [reflexivity|]. simpl.
      repeat split. apply push_window_length.
  - simpl. eexists. split; [reflexivity|]. simpl. repeat split. auto.
Qed.

(** The same timestamp twice: the second call divides by zero. *)
Lemma update_frame_stats_same_time (t : Q) (st : DepthAIStats) :
  (0 < last_frame_time st)%Q -> (t == last_frame_time st)%Q ->
  update_frame_stats t st = Raise ZeroDivisionError.
Proof.
  intros Hpos Heq. unfold update_frame_stats.
  apply Qltb_lt in Hpos. rewrite Hpos. unfold float_inverse.
  assert (Hz : Qeq_bool (t - last_frame_time st) 0 = true)
    by (apply Qeq_bool_iff; lra).
  rewrite Hz. reflexivity.
Qed.

Lemma increasing_tail (t : Q) (times : list Q) :
  increasing (t :: times) -> increasing times.
Proof. intros [_ H]. exact H. Qed.

Lemma increasing_take (n : nat) (times : list Q) :
  increasing times -> increasing (take n times).
Proof.
  revert n. induction times as [|t times IH]; intros n H.
  - destruct n; exact I.
  - destruct n as [|n]; [exact I|].
    change (take (S n) (t :: times)) with (t :: take n times).
    destruct H as [Hhd Htl]. split; [|apply IH; exact Htl].
    destruct times as [|t' times]; [destruct n; exact I|].
    destruct n; [exact I | exact Hhd].
Qed.

(** A run of calls with increasing timestamps, from a state whose last
    frame is older than the first of them. *)
Lemma update_frames_increasing (times : list Q) :
  forall st : DepthAIStats,
    increasing times ->
    match times with
    | [] => True
    | t :: _ => (last_frame_time st <= 0 \/ last_frame_time st < t)%Q
    end ->
    (length (fps_history st) <= 30)%nat ->
    exists st',
      update_frames times st = Ok st'
      /\ frame_count st' = frame_count st + Z.of_nat (length times)
      /\ temperature_history st' = temperature_history st
      /\ (length (fps_history st') <= 30)%nat.
Proof.
  induction times as [|t times IH]; intros st Hinc Hfirst Hwin.
  - exists st. simpl. repeat split; [lia | exact Hwin].
  - destruct (update_frame_stats_ok t st Hfirst)
      as (st1 & Hstep & Hcount & Hlast & Htemp & Hlen).
    destruct (IH st1) as (st' & Hrun & Hcount' & Htemp' & Hlen').
    + eapply increasing_tail. exact Hinc.
    + destruct times as [|t' times]; [exact I|].
      right. rewrite Hlast. destruct Hinc as [Hlt _]. exact Hlt.
    + apply Hlen. exact Hwin.
    + exists st'. simpl. rewrite Hstep. simpl.
      repeat split; [exact Hrun | | congruence | exact Hlen'].
      rewrite Hcount', Hcount. lia.
Qed.

(** Both windows stay within their capacity under every call. *)
Lemma perform_windows (c : call) (st : DepthAIStats) :
  (length (fps_history st) <= 30)%nat ->
  (length (temperature_history st) <= 60)%nat ->
  (length (fps_history (perform c st)) <= 30)%nat
  /\ (length (temperature_history (perform c st)) <= 60)%nat.
Proof.
  intros Hf Ht. destruct c as [t| | |c]; simpl; try (split; assumption).
  - unfold update_frame_stats, float_inverse.
    destruct (Qltb 0 (last_frame_time st)); simpl; [|split; assumption].
    destruct (Qeq_bool (t - last_frame_time st) 0); simpl;
      [split; assumption|].
    split; [apply push_window_length; exact Hf | exact Ht].
  - split; [exact Hf | apply push_window_length; exact Ht].
Qed.

Lemma perform_all_windows (cs : list call) :
  forall st : DepthAIStats,
    (length (fps_history st) <= 30)%nat ->
    (length (temperature_history st) <= 60)%nat ->
    (length (fps_history (perform_all cs st)) <= 30)%nat
    /\ (length (temperature_history (perform_all cs st)) <= 60)%nat.
Proof.
  induction cs as [|c cs IH]; intros st Hf Ht; [split; assumption|].
  destruct (perform_windows c st Hf Ht) as [Hf' Ht'].
  apply (IH (perform c st) Hf' Ht').
Qed.

(** C9.  From a fresh aggregate and for strictly increasing timestamps,
    every prefix of the calls succeeds, the snapshot's total_frames is the
    number of calls made and the rate window holds at most 30 entries; after
    any sequence of calls, among them temperature readings, the rate window
    holds at most 30 and the temperature window at most 60 entries; and a
    full window gives up its oldest entry for the new one. *)
Theorem C9_counts_and_windows (times : list Q) (start now : Q) :
  increasing times ->
  (forall n : nat, exists st,
      update_frames (take n times) (__init__ start) = Ok st
      /\ total_frames (get_stats now st) = Z.of_nat (length (take n times))
      /\ (length (fps_history st) <= 30)%nat)
  /\ (exists st,
      update_frames times (__init__ start) = Ok st
      /\ total_frames (get_stats now st) = Z.of_nat (length times))
  /\ (forall cs : list call,
      (length (fps_history (perform_all cs (__init__ start))) <= 30)%nat
      /\ (length (temperature_history (perform_all cs (__init__ start)))
          <= 60)%nat)
  /\ (forall (capacity : nat) (x oldest : Q) (history : list Q),
      length (oldest :: history) = capacity ->
      push_window capacity x (oldest :: history) = history ++ [x]).
Proof.
  intros Hinc.
  assert (Hrun : forall ts, increasing ts -> exists st,
             update_frames ts (__init__ start) = Ok st
             /\ total_frames (get_stats now st) = Z.of_nat (length ts)
             /\ (length (fps_history st) <= 30)%nat).
  { intros ts Hts.
    destruct (update_frames_increasing ts (__init__ start) Hts)
      as (st & Hr & Hc & _ & Hl).
    - destruct ts; [exact I|]. left. simpl. lra.
    - simpl. lia.
    - exists st. repeat split; [exact Hr | | exact Hl].
      simpl. rewrite Hc. simpl. lia. }
  split; [|split; [|split]].
  - intros n. apply Hrun. apply increasing_take. exact Hinc.
  - destruct (Hrun times Hinc) as (st & Hr & Hc & _). exists st. auto.
  - intros cs. apply perform_all_windows; simpl; lia.
  - intros capacity x oldest history. apply push_window_full.
Qed.

Lemma C9_witness :
  increasing [1; 2; 4]%Q
  /\ exists st, update_frames [1; 2; 4]%Q (__init__ 0) = Ok st
                /\ total_frames (get_stats 5 st) = 3.
Proof.
  assert (H : increasing [1; 2; 4]%Q).
  { simpl. repeat split; reflexivity. }
  split; [exact H|].
  exact (proj1 (proj2 (C9_counts_and_windows [1; 2; 4]%Q 0 5 H))).
Defined.


Lemma update_frame_stats_last (t : Q) (st st1 : DepthAIStats) :
  update_frame_stats t st = Ok st1 -> last_frame_time st1 = t.
Proof.
  unfold update_frame_stats, float_inverse. intros H.
  destruct (Qltb 0 (last_frame_time st)); simpl in H.
  - destruct (Qeq_bool (t - last_frame_time st) 0); simpl in H;
      [discriminate|].
    injection H as <-. reflexivity.
  - injection H as <-. reflexivity.
Qed.

(** C3.  After a successful call at a positive time [t], a second call at
    the same [t] raises ZeroDivisionError; the dispatch loop then counts an
    error and the frame is not counted. *)
Theorem C3_duplicate_timestamp_raises (t : Q) (st st1 : DepthAIStats) :
  (0 < t)%Q ->
  update_frame_stats t st = Ok st1 ->
  update_frame_stats t st1 = Raise ZeroDivisionError
  /\ frame_tick t st1 = increment_error st1
  /\ frame_count (frame_tick t st1) = frame_count st1.
Proof.
  intros Hpos Hfirst.
  apply update_frame_stats_last in Hfirst.
  assert (Hraise : update_frame_stats t st1 = Raise ZeroDivisionError).
  { apply update_frame_stats_same_time; rewrite Hfirst;
      [exact Hpos | reflexivity]. }
  unfold frame_tick. rewrite Hraise. repeat split.
Qed.

Lemma C3_witness :
  (0 < 1)%Q
  /\ update_frame_stats 1 (__init__ 0) = Ok after_first_frame
  /\ update_frame_stats 1 after_first_frame = Raise ZeroDivisionError.
Proof.
  assert (Hpos : (0 < 1)%Q) by reflexivity.
  assert (Hfirst : update_frame_stats 1 (__init__ 0) = Ok after_first_frame)
    by reflexivity.
  split; [exact Hpos|]. split; [exact Hfirst|].
  exact (proj1 (C3_duplicate_timestamp_raises 1 (__init__ 0) after_first_frame
                  Hpos Hfirst)).
Defined.

Lemma perform_keeps_temperature (c : call) (st : DepthAIStats) :
  is_temperature_call c = false ->
  temperature_history (perform c st) = temperature_history st.
Proof.
  destruct c as [t| | |c]; simpl; try reflexivity; [|discriminate].
  intros _. unfold update_frame_stats, float_inverse.
  destruct (Qltb 0 (last_frame_time st)); simpl; [|reflexivity].
  destruct (Qeq_bool (t - last_frame_time st) 0); reflexivity.
Qed.

Lemma perform_all_keeps_temperature (cs : list call) :
  forall st : DepthAIStats,
    forallb (fun c => negb (is_temperature_call c)) cs = true ->
    temperature_history (perform_all cs st) = temperature_history st.
Proof.
  induction cs as [|c cs IH]; intros st H; [reflexivity|].
  simpl in H. apply andb_true_iff in H. destruct H as [Hc Hcs].
  apply negb_true_iff in Hc.
  change (perform_all (c :: cs) st) with (perform_all cs (perform c st)).
  rewrite (IH _ Hcs). apply perform_keeps_temperature. exact Hc.
Qed.

(** C10.  As long as no temperature reading was recorded, the snapshot
    holds None for average_temperature_c and for current_temperature_c,
    which json.dump writes as null; current_fps and average_fps are the
    number 0 when the rate window is empty. *)
Theorem C10_temperature_none (cs : list call) (start now : Q) :
  forallb (fun c => negb (is_temperature_call c)) cs = true ->
  let s := get_stats now (perform_all cs (__init__ start)) in
  average_temperature_c s = None
  /\ current_temperature_c s = None
  /\ json_constant (optional_float (average_temperature_c s))
     = Some "null"%string
  /\ json_constant (optional_float (current_temperature_c s))
     = Some "null"%string
  /\ (fps_history (perform_all cs (__init__ start)) = [] ->
      current_fps s = 0%Q /\ average_fps s = 0%Q).
Proof.
  intros H s.
  assert (Ht : temperature_history (perform_all cs (__init__ start)) = [])
    by (rewrite perform_all_keeps_temperature; [reflexivity | exact H]).
  assert (Ha : average_temperature_c s = None)
    by (unfold s, get_stats; simpl; rewrite Ht; reflexivity).
  assert (Hc : current_temperature_c s = None)
    by (unfold s, get_stats; simpl; rewrite Ht; reflexivity).
  rewrite Ha, Hc.
  split; [reflexivity|]. split; [reflexivity|].
  split; [reflexivity|]. split; [reflexivity|].
  intros Hf. unfold s, get_stats. simpl. rewrite Hf. split; reflexivity.
Qed.

Lemma C10_witness :
  let cs := [UpdateFrameStats 1; UpdateImuStats; IncrementError;
             UpdateFrameStats 2] in
  forallb (fun c => negb (is_temperature_call c)) cs = true
  /\ average_temperature_c (get_stats 3 (perform_all cs (__init__ 0))) = None
  /\ current_temperature_c (get_stats 3 (perform_all cs (__init__ 0))) = None.
Proof.
  intros cs.
  assert (H : forallb (fun c => negb (is_temperature_call c)) cs = true)
    by reflexivity.
  split; [exact H|].
  pose proof (C10_temperature_none cs 0 3 H) as (Ha & Hc & _).
  split; [exact Ha | exact Hc].
Defined.

End StatsFacts.

(** ** Health verdict *)

Module HealthFacts.
Import Stats Health StatsFacts.

(** C7.  A snapshot with total_frames = 0 is healthy with no issue,
    whatever its error_count and its rates. *)
Theorem C7_startup_grace (s : snapshot) :
  total_frames s = 0 ->
  _check_health s = {| status := healthy; issues := [] |}.
Proof.
  intros H. unfold _check_health. rewrite H. simpl.
  rewrite andb_false_r. reflexivity.
Qed.

Lemma C7_witness :
  let s := {| uptime_seconds := 12; uptime_formatted := 12; total_frames := 0;
              snap_error_count := 7; current_fps := 0; average_fps := 0;
              snap_imu_data_count := 0; average_temperature_c := None;
              current_temperature_c := None; snap_last_frame_time := 0 |} in
  total_frames s = 0 /\ status (_check_health s) = healthy.
Proof.
  intros s.
  assert (H : total_frames s = 0) by reflexivity.
  split; [exact H|].
  rewrite (C7_startup_grace s H). reflexivity.
Defined.

Lemma high_error_rate_flagged (s : snapshot) :
  (exists r, In (HighErrorRate r) (issues (_check_health s)))
  <-> (0 < total_frames s /\ (1 # 10 < error_rate s)%Q).
Proof.
  unfold _check_health, error_rate. simpl.
  destruct (Qltb (current_fps s) 1 && (0 <? total_frames s)) eqn:Hlow;
    destruct (0 <? total_frames s) eqn:Hpos;
    try destruct (Qltb (1 # 10)
                   (inject_Z (snap_error_count s) / inject_Z (total_frames s)))
      eqn:Hrate; simpl.
  all: try apply Z.ltb_lt in Hpos.
  all: try apply Z.ltb_ge in Hpos.
  all: try apply Qltb_lt in Hrate.
  all: try apply Qltb_ge in Hrate.
  all: split;
    [ intros [r Hr];
      repeat (destruct Hr as [Hr|Hr]; try discriminate);
      try contradiction; try (split; [lia | assumption])
    | intros [Ht Hr]; try lia; try lra; eauto ].
Qed.

(** C8.  With current_fps at least 1: for total_frames = 100 and
    error_count = 11 the verdict is degraded and its only issue is the high
    error rate; for error_count = 9 it is healthy; and in general the high
    error rate is among the issues exactly when total_frames > 0 and
    error_count / total_frames > 0.10. *)
Theorem C8_error_rate_threshold (s : snapshot) :
  (1 <= current_fps s)%Q ->
  (total_frames s = 100 -> snap_error_count s = 11 ->
     _check_health s
     = {| status := degraded;
          issues := [HighErrorRate (inject_Z 11 / inject_Z 100)] |})
  /\ (total_frames s = 100 -> snap_error_count s = 9 ->
     _check_health s = {| status := healthy; issues := [] |})
  /\ ((exists r, In (HighErrorRate r) (issues (_check_health s)))
      <-> (0 < total_frames s
           /\ (1 # 10 < inject_Z (snap_error_count s)
                         / inject_Z (total_frames s))%Q)).
Proof.
  intros Hfps. apply Qltb_ge in Hfps.
  split; [|split].
  - intros Ht He. unfold _check_health. rewrite Hfps, Ht, He. reflexivity.
  - intros Ht He. unfold _check_health. rewrite Hfps, Ht, He. reflexivity.
  - apply high_error_rate_flagged.
Qed.

Lemma C8_witness :
  (1 <= current_fps (snapshot_with 100 11 30))%Q
  /\ status (_check_health (snapshot_with 100 11 30)) = degraded.
Proof.
  assert (H : (1 <= current_fps (snapshot_with 100 11 30))%Q)
    by (vm_compute; discriminate).
  split; [exact H|].
  rewrite (proj1 (C8_error_rate_threshold (snapshot_with 100 11 30) H)
             eq_refl eq_refl).
  reflexivity.
Defined.

End HealthFacts.

(** ** Publication of the status document *)

Module StatusFileFacts.
Import Stats Health StatusFile.

Lemma update_status_ops (now : Q) (pid : Z) (st : DepthAIStats) :
  exists d,
    _update_status now pid st = [OpenForWriting; DumpAndClose d]
    /\ map fst d = required_keys
    /\ In ("stats"%string, MStats (get_stats now st)) d
    /\ In ("health"%string, MHealth (_check_health (get_stats now st))) d.
Proof.
  eexists. split; [reflexivity|]. split; [reflexivity|].
  split; simpl; tauto.
Qed.

(** C2, as the code has it.  A publication opens the status path for
    writing, which leaves an empty file, and then writes the document: a
    reader sees the empty file first and the whole document, with its five
    top-level keys, once the publication is over, whatever the path held
    before. *)
Theorem C2_publication_in_place (now : Q) (pid : Z) (st : DepthAIStats)
    (c : content) :
  observable (_update_status now pid st) c
  = [EmptyFile; publish now pid st c]
  /\ has_required_keys EmptyFile = false
  /\ has_required_keys (publish now pid st c) = true
  /\ exists d, publish now pid st c = Document d
               /\ map fst d = required_keys
               /\ In ("stats"%string, MStats (get_stats now st)) d
               /\ In ("health"%string,
                      MHealth (_check_health (get_stats now st))) d.
Proof.
  split; [reflexivity|]. split; [reflexivity|]. split; [reflexivity|].
  eexists. split; [reflexivity|]. split; [reflexivity|].
  split; simpl; tauto.
Qed.

(** The claim as stated fails: during a publication over a complete
    document the path holds a file without any of the required keys. *)
Lemma C2_counterexample :
  ~ (forall (now : Q) (pid : Z) (st : DepthAIStats) (c c' : content),
       has_required_keys c = true ->
       In c' (observable (_update_status now pid st) c) ->
       has_required_keys c' = true).
Proof.
  intros H.
  specialize (H 1%Q 42 (__init__ 0) (publish 0 42 (__init__ 0) Absent)
                EmptyFile).
  assert (Hfalse : has_required_keys EmptyFile = true).
  { apply H; [reflexivity | left; reflexivity]. }
  discriminate Hfalse.
Qed.

End StatusFileFacts.

(** ** Reload of the configuration *)

Module ReloadFacts.
Import Config Reload.

Lemma DepthAIConfig_address (path : string) (w : world) :
  fst (DepthAIConfig__init__ path w) = next_address w
  /\ next_address (snd (DepthAIConfig__init__ path w)) = S (next_address w).
Proof.
  unfold DepthAIConfig__init__.
  destruct (load_config (default Missing (files w !! path))).
  split; reflexivity.
Qed.

Lemma DepthAIConfig_keeps_objects (path : string) (w : world) (a : nat) :
  a <> next_address w ->
  objects (snd (DepthAIConfig__init__ path w)) !! a = objects w !! a.
Proof.
  intros Ha. unfold DepthAIConfig__init__.
  destruct (load_config (default Missing (files w !! path))). simpl.
  apply lookup_insert_ne. congruence.
Qed.

(** The reload leaves the monitor's reference alone. *)
Lemma reload_keeps_monitor (d : DepthAIDaemon) (w : world) :
  health_monitor (fst (_reload_config d w)) = health_monitor d.
Proof.
  unfold _reload_config.
  destruct (objects w !! d_config d) as [old|]; [|reflexivity].
  destruct (DepthAIConfig__init__ (config_path old) w). reflexivity.
Qed.

(** Whatever the file holds at the reload, the monitor reads what it read
    before. *)
Lemma reload_monitor_setting (d : DepthAIDaemon) (w : world)
    (section key : string) :
  (hm_config (health_monitor d) < next_address w)%nat ->
  monitor_setting (fst (_reload_config d w)) (snd (_reload_config d w))
                  section key
  = monitor_setting d w section key.
Proof.
  intros Hlt. unfold monitor_setting.
  rewrite reload_keeps_monitor.
  unfold _reload_config.
  destruct (objects w !! d_config d) as [old|]; [|reflexivity].
  pose proof (DepthAIConfig_keeps_objects (config_path old) w
                (hm_config (health_monitor d))) as Hk.
  destruct (DepthAIConfig__init__ (config_path old) w) as [a w'] eqn:E.
  simpl in *.
  rewrite Hk by lia. reflexivity.
Qed.


(** C6 at the failing input.  The daemon starts without a file, the file
    is then written with health_check_interval 5 and save_frames true, and
    the reload signal is delivered: the daemon reads interval 5 and
    save_frames true from the new object, the health monitor still reads
    interval 30 from the object it was constructed with. *)
Theorem C6_monitor_keeps_old_config :
  daemon_setting (fst reload_scenario) (snd reload_scenario)
                 "service" "health_check_interval" = Some (PInt 5)
  /\ dispatch_save_frames (fst reload_scenario) (snd reload_scenario)
     = Some (PBool true)
  /\ monitor_interval (fst reload_scenario) (snd reload_scenario)
     = Some (PInt 30)
  /\ hm_config (health_monitor (fst reload_scenario))
     <> d_config (fst reload_scenario).
Proof.
  split; [vm_compute; reflexivity|].
  split; [vm_compute; reflexivity|].
  split; [vm_compute; reflexivity|].
  vm_compute. discriminate.
Qed.

End ReloadFacts.

(** ** The reconnect loop *)

Module SupervisorFacts.
Import Stats Supervisor.

Lemma count_lines_app (l : log_line) (d : daemon) (lines : list log_line) :
  length (List.filter (is_line l) (log d ++ lines))
  = (count_lines l d + length (List.filter (is_line l) lines))%nat.
Proof.
  unfold count_lines. rewrite List.filter_app, length_app. reflexivity.
Qed.

Ltac count_log :=
  unfold count_lines; simpl;
  rewrite ?List.filter_app, ?length_app; simpl; try lia.

(** Every pass ends in the handler: either the pipeline or the connection
    fails, or the device is there and the features, which are [None] after
    the detection, have no [get]. *)
Lemma try_block_raises (cfg : gmap string pyval) (p : pass) (d : daemon) :
  exists d' e, try_block cfg p d = (d', Raised e) /\ pass_effect d d'.
Proof.
  unfold try_block.
  destruct (_create_pipeline cfg p
              (available_features (say CreatingPipeline d))) as [pl|e].
  - destruct (connects p); simpl.
    + eexists _, _. split; [reflexivity|].
      destruct (signal_in_pass p); constructor; simpl; count_log;
        try discriminate; auto.
    + eexists _, _. split; [reflexivity|].
      destruct (signal_in_pass p); constructor; simpl; count_log;
        try discriminate; auto.
  - eexists _, _. split; [reflexivity|].
    constructor; simpl; count_log; auto.
Qed.

Lemma after_error_effect (d : daemon) :
  reconnect_attempts (after_error d) = reconnect_attempts d + 1
  /\ running (after_error d) = running d
  /\ (forall l, count_lines l (after_error d) = count_lines l d).
Proof.
  unfold after_error. simpl. repeat split.
  intros l. count_log. destruct l; simpl; lia.
Qed.

Lemma finish_effect (d : daemon) :
  exists d', finish d = Stopped d'
    /\ reconnect_attempts d' = reconnect_attempts d
    /\ monitoring d' = false
    /\ count_lines CreatingPipeline d' = count_lines CreatingPipeline d
    /\ count_lines StartingFrameProcessing d'
       = count_lines StartingFrameProcessing d
    /\ count_lines MaxAttemptsOrShutdown d'
       = count_lines MaxAttemptsOrShutdown d.
Proof.
  eexists. split; [reflexivity|]. simpl. repeat split; count_log.
Qed.

Lemma before_retry_effect (delay : pyval) (p : pass) (d : daemon) :
  reconnect_attempts (before_retry delay p d) = reconnect_attempts d
  /\ (running (before_retry delay p d) = true -> running d = true)
  /\ (quiet p -> running (before_retry delay p d) = running d)
  /\ (forall l, count_lines l (before_retry delay p d) = count_lines l d).
Proof.
  unfold before_retry, quiet.
  destruct (signal_in_delay p); simpl; repeat split; try discriminate; auto.
  - intros [_ H]. discriminate H.
  - intros l. count_log. destruct l; simpl; lia.
  - intros l. count_log. destruct l; simpl; lia.
Qed.

Lemma verdict_effect (d : daemon) :
  exists d', finish (say MaxAttemptsOrShutdown d) = Stopped d'
    /\ reconnect_attempts d' = reconnect_attempts d
    /\ monitoring d' = false
    /\ count_lines CreatingPipeline d' = count_lines CreatingPipeline d
    /\ count_lines StartingFrameProcessing d'
       = count_lines StartingFrameProcessing d
    /\ count_lines MaxAttemptsOrShutdown d'
       = S (count_lines MaxAttemptsOrShutdown d).
Proof.
  eexists. split; [reflexivity|]. simpl. repeat split; count_log.
Qed.

(** One pass of the loop, when the loop condition holds. *)
Lemma loop_pass (cfg : gmap string pyval) (m : Z) (delay : pyval)
    (p : pass) (rest : list pass) (d : daemon) :
  running d = true -> reconnect_attempts d < m ->
  exists d1,
    pass_effect d d1
    /\ (quiet p -> running d1 = true)
    /\ loop cfg (PInt m) delay (p :: rest) d
       = if (reconnect_attempts d + 1 <? m) && running d1
         then loop cfg (PInt m) delay rest
                   (before_retry delay p (after_error d1))
         else finish (say MaxAttemptsOrShutdown (after_error d1)).
Proof.
  intros Hrun Hlt.
  destruct (try_block_raises cfg p d) as (d1 & e & Htry & Heff).
  exists d1. split; [exact Heff|]. split.
  - intros [Hq _]. revert Htry. unfold try_block. rewrite Hq.
    destruct (_create_pipeline cfg p _); [destruct (connects p)|]; simpl;
      intros [= <- _]; simpl; exact Hrun.
  - simpl loop. rewrite Hrun. simpl int_lt.
    apply Z.ltb_lt in Hlt. rewrite Hlt. rewrite Htry.
    simpl. rewrite (same_attempts _ _ Heff). reflexivity.
Qed.

Lemma loop_exit (cfg : gmap string pyval) (m : Z) (delay : pyval)
    (passes : list pass) (d : daemon) :
  running d = false \/ m <= reconnect_attempts d ->
  loop cfg (PInt m) delay passes d = finish d.
Proof.
  intros H. destruct passes; simpl; destruct (running d); try reflexivity;
    (destruct H as [H|H]; [discriminate|]);
    apply Z.ltb_ge in H; simpl; rewrite H; reflexivity.
Qed.

(** The loop returns within [max_attempts] passes and never streams. *)
Lemma loop_stops (passes : list pass) :
  forall (cfg : gmap string pyval) (m : Z) (delay : pyval) (d : daemon),
    m - reconnect_attempts d <= Z.of_nat (length passes) ->
    exists d',
      loop cfg (PInt m) delay passes d = Stopped d'
      /\ monitoring d' = false
      /\ count_lines StartingFrameProcessing d'
         = count_lines StartingFrameProcessing d
      /\ (Z.of_nat (count_lines CreatingPipeline d')
          <= Z.of_nat (count_lines CreatingPipeline d)
             + Z.max 0 (m - reconnect_attempts d)).
Proof.
  induction passes as [|p rest IH]; intros cfg m delay d Hlen.
  - rewrite loop_exit.
    + destruct (finish_effect d) as (d' & -> & _ & Hm & Hc & Hs & _).
      exists d'. repeat split; [exact Hm | exact Hs | lia].
    + simpl in Hlen. right. lia.
  - destruct (running d) eqn:Hrun;
      [destruct (Z.lt_ge_cases (reconnect_attempts d) m) as [Hlt|Hge]|].
    + destruct (loop_pass cfg m delay p rest d Hrun Hlt)
        as (d1 & Heff & _ & ->).
      destruct Heff as [Ha Hp Hs Hv Hr].
      destruct (after_error_effect d1) as (Ha2 & Hr2 & Hc2).
      destruct ((reconnect_attempts d + 1 <? m) && running d1).
      * destruct (before_retry_effect delay p (after_error d1))
          as (Ha3 & _ & _ & Hc3).
        destruct (IH cfg m delay (before_retry delay p (after_error d1)))
          as (d' & Hl & Hm & Hs' & Hc').
        { rewrite Ha3, Ha2, Ha. simpl in Hlen. lia. }
        exists d'. split; [exact Hl|]. split; [exact Hm|].
        rewrite Hc3, Hc2 in Hs', Hc'. rewrite Ha3, Ha2, Ha in Hc'.
        split; [congruence | lia].
      * destruct (verdict_effect (after_error d1))
          as (d' & -> & _ & Hm & Hc & Hs' & _).
        exists d'. split; [reflexivity|]. split; [exact Hm|].
        rewrite Hc2 in Hc, Hs'. split; [congruence | lia].
    + rewrite loop_exit by (right; lia).
      destruct (finish_effect d) as (d' & -> & _ & Hm & Hc & Hs & _).
      exists d'. repeat split; [exact Hm | exact Hs | lia].
    + rewrite loop_exit by (left; exact Hrun).
      destruct (finish_effect d) as (d' & -> & _ & Hm & Hc & Hs & _).
      exists d'. repeat split; [exact Hm | exact Hs | lia].
Qed.

(** Without a signal the loop makes exactly the passes that are left and
    ends on the line "Max reconnection attempts reached". *)
Lemma loop_exhausts (passes : list pass) :
  forall (cfg : gmap string pyval) (m : Z) (delay : pyval) (d : daemon),
    running d = true ->
    reconnect_attempts d < m ->
    m - reconnect_attempts d <= Z.of_nat (length passes) ->
    Forall quiet (take (Z.to_nat (m - reconnect_attempts d)) passes) ->
    exists d',
      loop cfg (PInt m) delay passes d = Stopped d'
      /\ reconnect_attempts d' = m
      /\ Z.of_nat (count_lines CreatingPipeline d')
         = Z.of_nat (count_lines CreatingPipeline d)
           + (m - reconnect_attempts d)
      /\ count_lines StartingFrameProcessing d'
         = count_lines StartingFrameProcessing d
      /\ count_lines MaxAttemptsOrShutdown d'
         = S (count_lines MaxAttemptsOrShutdown d).
Proof.
  induction passes as [|p rest IH]; intros cfg m delay d Hrun Hlt Hlen Hq.
  - simpl in Hlen. lia.
  - destruct (loop_pass cfg m delay p rest d Hrun Hlt)
      as (d1 & Heff & Hquiet & ->).
    destruct Heff as [Ha Hp Hs Hv Hr].
    destruct (after_error_effect d1) as (Ha2 & Hr2 & Hc2).
    replace (Z.to_nat (m - reconnect_attempts d))
      with (S (Z.to_nat (m - reconnect_attempts d - 1))) in Hq by lia.
    simpl in Hq. apply Forall_cons in Hq. destruct Hq as [Hqp Hqrest].
    rewrite (Hquiet Hqp), andb_true_r.
    destruct (Z.ltb_spec (reconnect_attempts d + 1) m) as [Hlt2|Hge2].
    + destruct (before_retry_effect delay p (after_error d1))
        as (Ha3 & _ & Hr3 & Hc3).
      destruct (IH cfg m delay (before_retry delay p (after_error d1)))
        as (d' & Hl & Hm & Hc' & Hs' & Hv').
      * rewrite (Hr3 Hqp), Hr2. exact (Hquiet Hqp).
      * rewrite Ha3, Ha2, Ha. exact Hlt2.
      * rewrite Ha3, Ha2, Ha. simpl in Hlen. lia.
      * rewrite Ha3, Ha2, Ha.
        replace (m - (reconnect_attempts d + 1))
          with (m - reconnect_attempts d - 1) by lia.
        exact Hqrest.
      * exists d'. split; [exact Hl|]. split; [exact Hm|].
        rewrite Hc3, Hc2 in Hc', Hs', Hv'. rewrite Ha3, Ha2, Ha in Hc'.
        split; [lia|]. split; congruence.
    + destruct (verdict_effect (after_error d1))
        as (d' & -> & Ha' & Hm & Hc & Hs' & Hv').
      exists d'. split; [reflexivity|].
      rewrite Hc2 in Hc, Hs', Hv'.
      split; [lia|]. split; [lia|]. split; congruence.
Qed.

Lemma run_with_attempts (n : Z) (passes : list pass) (d : daemon) :
  run (config_with_attempts n) passes d
  = loop (config_with_attempts n) (PInt n) (PInt 10) passes
         (set_attempts 0 (set_monitoring true (say DaemonStarting d))).
Proof. reflexivity. Qed.

(** With max_reconnect_attempts = n, [run] returns after at most n passes,
    whatever the device does, and never starts streaming. *)
Lemma run_stops (n : Z) (passes : list pass) (now : Q) :
  n <= Z.of_nat (length passes) ->
  exists d,
    run (config_with_attempts n) passes (__init__ now) = Stopped d
    /\ monitoring d = false
    /\ streaming_started (Stopped d) = 0%nat
    /\ Z.of_nat (attempts_started (Stopped d)) <= Z.max 0 n.
Proof.
  intros Hlen. rewrite run_with_attempts.
  destruct (loop_stops passes (config_with_attempts n) n (PInt 10)
              (set_attempts 0
                 (set_monitoring true (say DaemonStarting (__init__ now)))))
    as (d & Hl & Hm & Hs & Hc).
  - simpl. lia.
  - exists d. split; [exact Hl|]. split; [exact Hm|].
    unfold streaming_started, attempts_started. simpl final.
    split; [rewrite Hs; reflexivity|].
    simpl in Hc. change (count_lines CreatingPipeline _) with 0%nat in Hc at 2.
    lia.
Qed.

(** Three passes without a termination signal and with
    max_reconnect_attempts = 3, for instance three failures to connect: the
    loop ends on "Max reconnection attempts reached" after exactly three
    passes, and a fourth pass is never begun. *)
Lemma three_failures_stop (p1 p2 p3 : pass) (rest : list pass) (now : Q) :
  quiet p1 -> quiet p2 -> quiet p3 ->
  exists d,
    run (config_with_attempts 3) (p1 :: p2 :: p3 :: rest) (__init__ now)
    = Stopped d
    /\ reconnect_attempts d = 3
    /\ attempts_started (Stopped d) = 3%nat
    /\ streaming_started (Stopped d) = 0%nat
    /\ count_lines MaxAttemptsOrShutdown d = 1%nat.
Proof.
  intros H1 H2 H3. rewrite run_with_attempts.
  destruct (loop_exhausts (p1 :: p2 :: p3 :: rest) (config_with_attempts 3)
              3 (PInt 10)
              (set_attempts 0
                 (set_monitoring true (say DaemonStarting (__init__ now)))))
    as (d & Hl & Ha & Hc & Hs & Hv).
  - reflexivity.
  - simpl. lia.
  - simpl. lia.
  - simpl. repeat (apply List.Forall_cons; [assumption|]).
    apply List.Forall_nil.
  - exists d. split; [exact Hl|]. split; [exact Ha|].
    unfold streaming_started, attempts_started. simpl final.
    simpl in Hc.
    change (count_lines CreatingPipeline _) with 0%nat in Hc at 2.
    split; [lia|]. split; [rewrite Hs; reflexivity | rewrite Hv; reflexivity].
Qed.

(** C1 at the failing input.  With max_reconnect_attempts = 3, the first
    pass fails to connect and the second one connects: the block raises
    before "Starting frame processing", the counter is 2 and not 0, no
    streaming begins; a third pass, connected as well, is the last one and
    [run] returns with the counter at 3. *)
Theorem C1_success_does_not_reset :
  let two := run (config_with_attempts 3)
                 [connect_failure; connect_success] (__init__ 0) in
  let three := run (config_with_attempts 3)
                 [connect_failure; connect_success; connect_success]
                 (__init__ 0) in
  stopped two = false
  /\ reconnect_attempts (final two) = 2
  /\ available_features (final two) = None
  /\ streaming_started two = 0%nat
  /\ stopped three = true
  /\ reconnect_attempts (final three) = 3
  /\ attempts_started three = 3%nat
  /\ streaming_started three = 0%nat.
Proof. vm_compute. repeat split. Qed.

End SupervisorFacts.

(** ** Artifact retention *)

Module ArtifactsFacts.
Import Artifacts.

(** [_save_imu_data] never removes a file, from any directory. *)
Lemma save_imu_keeps_files (cfg : gmap string pyval) (timestamp : string)
    (now : Q) (fs : filesystem) (path : string) :
  file_names path fs ⊆ file_names path (_save_imu_data cfg timestamp now fs).
Proof.
  unfold _save_imu_data.
  destruct (subscript2 cfg "output" "output_directory") as [[]|];
    try reflexivity.
  set (imu_dir := path_join s "imu").
  set (name := ("imu_" ++ timestamp ++ ".json")%string).
  unfold file_names, write_file, makedirs.
  intros k Hk.
  destruct (fs !! imu_dir) as [d|] eqn:Hd.
  - rewrite Hd. destruct (decide (path = imu_dir)) as [->|Hne].
    + rewrite lookup_insert_eq. rewrite Hd in Hk. simpl in *.
      rewrite dom_insert. set_solver.
    + rewrite lookup_insert_ne by congruence. exact Hk.
  - rewrite lookup_insert_eq. destruct (decide (path = imu_dir)) as [->|Hne].
    + rewrite Hd in Hk. simpl in Hk. set_solver.
    + rewrite lookup_insert_ne by congruence.
      rewrite lookup_insert_ne by congruence. exact Hk.
Qed.

(** The number of files of a directory never goes down when a packet is
    saved, whatever [max_files] is. *)
Lemma save_imu_count_monotone (cfg : gmap string pyval) (timestamp : string)
    (now : Q) (fs : filesystem) (path : string) :
  (file_count path fs
   <= file_count path (_save_imu_data cfg timestamp now fs))%nat.
Proof.
  pose proof (save_imu_keeps_files cfg timestamp now fs path) as H.
  unfold file_names in H. unfold file_count.
  rewrite <- !size_dom. apply subseteq_size. exact H.
Qed.

Lemma ctime_le_trans (a b c : string * Q) :
  ctime_le a b -> ctime_le b c -> ctime_le a c.
Proof. unfold ctime_le. apply Qle_trans. Qed.

(** *** The sort *)

Lemma insert_by_ctime_perm (x : string * Q) (l : list (string * Q)) :
  insert_by_ctime x l ≡ₚ x :: l.
Proof.
  induction l as [|y l IH]; simpl; [reflexivity|].
  destruct (Qle_bool (snd y) (snd x)); [|reflexivity].
  rewrite IH. apply Permutation_swap.
Qed.

Lemma fold_insert_perm (l : list (string * Q)) :
  forall acc : list (string * Q),
    fold_left (fun acc x => insert_by_ctime x acc) l acc ≡ₚ acc ++ l.
Proof.
  induction l as [|x l IH]; intros acc; simpl.
  - rewrite app_nil_r. reflexivity.
  - rewrite IH, insert_by_ctime_perm.
    rewrite (Permutation_middle acc l x). reflexivity.
Qed.

Lemma sorted_by_ctime_perm (l : list (string * Q)) : sorted_by_ctime l ≡ₚ l.
Proof. unfold sorted_by_ctime. rewrite fold_insert_perm. reflexivity. Qed.

Lemma insert_by_ctime_sorted (x : string * Q) (l : list (string * Q)) :
  StronglySorted ctime_le l -> StronglySorted ctime_le (insert_by_ctime x l).
Proof.
  induction l as [|y l IH]; intros Hs; simpl.
  - repeat constructor.
  - apply StronglySorted_inv in Hs. destruct Hs as [Hl Hy].
    destruct (Qle_bool (snd y) (snd x)) eqn:E.
    + constructor; [apply IH; exact Hl|].
      apply Forall_forall. intros z Hz.
      rewrite insert_by_ctime_perm in Hz.
      apply elem_of_cons in Hz. destruct Hz as [->|Hz].
      * apply Qle_bool_iff in E. exact E.
      * rewrite Forall_forall in Hy. apply Hy. exact Hz.
    + assert (Hxy : ctime_le x y).
      { unfold ctime_le. destruct (Qlt_le_dec (snd x) (snd y)) as [H|H].
        - apply Qlt_le_weak. exact H.
        - apply Qle_bool_iff in H. congruence. }
      constructor; [constructor; assumption|].
      constructor; [exact Hxy|].
      eapply Forall_impl; [exact Hy|].
      intros z Hz. eapply ctime_le_trans; eassumption.
Qed.

Lemma fold_insert_sorted (l : list (string * Q)) :
  forall acc : list (string * Q),
    StronglySorted ctime_le acc ->
    StronglySorted ctime_le
      (fold_left (fun acc x => insert_by_ctime x acc) l acc).
Proof.
  induction l as [|x l IH]; intros acc Hacc; simpl; [exact Hacc|].
  apply IH. apply insert_by_ctime_sorted. exact Hacc.
Qed.

Lemma sorted_by_ctime_sorted (l : list (string * Q)) :
  StronglySorted ctime_le (sorted_by_ctime l).
Proof. apply fold_insert_sorted. constructor. Qed.

(** *** Removing files *)

Lemma unlink_all (path : string) (files : list (string * Q)) :
  forall (fs : filesystem) (d : gmap string Q),
    fs !! path = Some d ->
    fold_left (fun fs' file => unlink path fs' (fst file)) files fs !! path
    = Some (delete_all files d).
Proof.
  induction files as [|f files IH]; intros fs d Hd; simpl; [exact Hd|].
  apply IH. unfold unlink. rewrite Hd. apply lookup_insert_eq.
Qed.

Lemma delete_all_perm (files : list (string * Q)) :
  forall d : gmap string Q,
    NoDup (files.*1) ->
    (forall k x, (k, x) ∈ files -> d !! k = Some x) ->
    map_to_list (delete_all files d) ++ files ≡ₚ map_to_list d.
Proof.
  induction files as [|[k x] files IH]; intros d Hnd Hin; simpl.
  - rewrite app_nil_r. reflexivity.
  - apply NoDup_cons in Hnd. destruct Hnd as [Hk Hnd].
    rewrite <- Permutation_middle.
    rewrite IH.
    + apply map_to_list_delete. apply Hin. left.
    + exact Hnd.
    + intros k' x' Hin'.
      rewrite lookup_delete_ne.
      * apply Hin. right. exact Hin'.
      * intros ->. apply Hk. simpl.
        apply list_elem_of_fmap. exists (k', x').
        split; [reflexivity | exact Hin'].
Qed.

Lemma glob_jpg_keys (path : string) (fs : filesystem) :
  NoDup ((glob_jpg path fs).*1).
Proof.
  unfold glob_jpg.
  apply (sublist_NoDup _ ((map_to_list (default ∅ (fs !! path))).*1)).
  - apply NoDup_fst_map_to_list.
  - apply fmap_sublist. apply sublist_filter.
Qed.

Lemma glob_jpg_entry (path : string) (fs : filesystem) (k : string) (x : Q) :
  (k, x) ∈ glob_jpg path fs ->
  default ∅ (fs !! path) !! k = Some x /\ is_jpg (k, x).
Proof.
  unfold glob_jpg. intros H. apply list_elem_of_filter in H.
  destruct H as [Hj H]. apply elem_of_map_to_list in H. split; assumption.
Qed.

(** *** The sweep *)

(** After the sweep the directory lists the newest [max_files] of the
    .jpg files it listed before, for a positive [max_files]. *)
Lemma cleanup_keeps_newest (cfg : gmap string pyval) (path : string)
    (fs : filesystem) (m : Z) :
  subscript2 cfg "output" "max_files" = Some (PInt m) ->
  0 < m ->
  let files := sorted_by_ctime (glob_jpg path fs) in
  glob_jpg path (_cleanup_old_files cfg path fs)
  ≡ₚ drop (length files - Z.to_nat m) files.
Proof.
  intros Hm Hpos files. unfold _cleanup_old_files. rewrite Hm.
  simpl. fold files.
  destruct (Z.ltb_spec m (Z.of_nat (length files))) as [Hlt|Hge].
  - assert (Hslice : slice_until (- m) files
                     = take (length files - Z.to_nat m) files).
    { unfold slice_until.
      destruct (Z.ltb_spec (- m) 0) as [_|H]; [|lia].
      f_equal. lia. }
    rewrite Hslice.
    set (j := (length files - Z.to_nat m)%nat).
    destruct (fs !! path) as [d|] eqn:Hd.
    + assert (Hfiles : files ≡ₚ filter is_jpg (map_to_list d)).
      { unfold files. rewrite sorted_by_ctime_perm. unfold glob_jpg.
        rewrite Hd. reflexivity. }
      assert (Hsub : forall k x, (k, x) ∈ take j files ->
                d !! k = Some x /\ is_jpg (k, x)).
      { intros k x Hin. apply subseteq_take in Hin.
        rewrite Hfiles in Hin. apply list_elem_of_filter in Hin.
        destruct Hin as [Hj Hin]. apply elem_of_map_to_list in Hin.
        split; assumption. }
      assert (Hnd : NoDup ((take j files).*1)).
      { rewrite fmap_take. apply (sublist_NoDup _ (files.*1)).
        - unfold files. rewrite sorted_by_ctime_perm. apply glob_jpg_keys.
        - apply sublist_take. }
      pose proof (delete_all_perm (take j files) d Hnd
                    (fun k x H => proj1 (Hsub k x H))) as Hperm.
      assert (Hall : filter is_jpg (take j files) = take j files).
      { clear Hperm Hnd. induction (take j files) as [|[k x] l IH];
          [reflexivity|].
        rewrite filter_cons_True by (apply (Hsub k x); left).
        f_equal. apply IH. intros k' x' H. apply Hsub. right. exact H. }
      unfold glob_jpg at 1.
      rewrite (unlink_all path (take j files) fs d Hd). simpl default.
      apply (Permutation_app_inv_r (take j files)).
      transitivity
        (filter is_jpg
           (map_to_list (delete_all (take j files) d) ++ take j files)).
      { rewrite filter_app, Hall. reflexivity. }
      rewrite Hperm, <- Hfiles.
      rewrite (Permutation_app_comm (drop j files)), take_drop. reflexivity.
    + exfalso. unfold files, glob_jpg in Hlt. rewrite Hd in Hlt.
      simpl in Hlt. rewrite map_to_list_empty in Hlt. simpl in Hlt. lia.
  - replace (length files - Z.to_nat m)%nat with 0%nat by lia.
    simpl. unfold files. rewrite sorted_by_ctime_perm. reflexivity.
Qed.

(** The sweep leaves at most [max_files] .jpg files. *)
Lemma cleanup_bound (cfg : gmap string pyval) (path : string)
    (fs : filesystem) (m : Z) :
  subscript2 cfg "output" "max_files" = Some (PInt m) ->
  0 < m ->
  Z.of_nat (length (glob_jpg path (_cleanup_old_files cfg path fs))) <= m.
Proof.
  intros Hm Hpos.
  rewrite (cleanup_keeps_newest cfg path fs m Hm Hpos).
  rewrite length_drop. lia.
Qed.

(** The sweep removes the oldest: no file it keeps was created before a
    file it leaves out. *)
Lemma cleanup_oldest_first (cfg : gmap string pyval) (path : string)
    (fs : filesystem) (m : Z) (kept gone : string * Q) :
  subscript2 cfg "output" "max_files" = Some (PInt m) ->
  0 < m ->
  kept ∈ glob_jpg path (_cleanup_old_files cfg path fs) ->
  gone ∈ glob_jpg path fs ->
  gone ∉ glob_jpg path (_cleanup_old_files cfg path fs) ->
  ctime_le gone kept.
Proof.
  intros Hm Hpos Hkept Hgone Hnot.
  pose proof (cleanup_keeps_newest cfg path fs m Hm Hpos) as Hperm.
  simpl in Hperm.
  set (files := sorted_by_ctime (glob_jpg path fs)) in *.
  set (j := (length files - Z.to_nat m)%nat) in *.
  rewrite Hperm in Hkept, Hnot.
  assert (Hin : gone ∈ take j files ++ drop j files).
  { rewrite take_drop. unfold files. rewrite sorted_by_ctime_perm.
    exact Hgone. }
  apply elem_of_app in Hin. destruct Hin as [Hin|Hin]; [|contradiction].
  apply (StronglySorted_app_1_elem_of ctime_le (take j files) (drop j files));
    [|exact Hin|exact Hkept].
  rewrite take_drop. apply sorted_by_ctime_sorted.
Qed.

(** Hence every completed [_save_frame] leaves at most [max_files] frames
    in the output directory. *)
Lemma save_frame_bound (cfg : gmap string pyval) (output_dir : string)
    (m : Z) (frame_type timestamp : string) (frame_count : Z) (now : Q)
    (fs : filesystem) :
  subscript2 cfg "output" "output_directory" = Some (PStr output_dir) ->
  subscript2 cfg "output" "max_files" = Some (PInt m) ->
  0 < m ->
  Z.of_nat (length (glob_jpg output_dir
               (_save_frame cfg frame_type timestamp frame_count now fs)))
  <= m.
Proof.
  intros Hdir Hm Hpos. unfold _save_frame. rewrite Hdir.
  apply cleanup_bound; assumption.
Qed.

(** C4 at the failing input.  With max_files = 5 and eight packets saved
    one after the other, the imu directory holds eight files; eight frames
    saved the same way leave the five newest .jpg files; and with
    max_files = 0 the sweep removes nothing, eight frames stay. *)
Theorem C4_imu_directory_not_swept :
  file_count "/data/imu"
    (save_imu_packets (config_with_max 5) eight_packets fresh_filesystem)
  = 8%nat
  /\ file_count "/data"
       (save_frames (config_with_max 5) eight fresh_filesystem) = 5%nat
  /\ file_names "/data"
       (save_frames (config_with_max 5) eight fresh_filesystem)
     = {[ "rgb_20240101_000004_000003.jpg"; "rgb_20240101_000005_000004.jpg";
          "rgb_20240101_000006_000005.jpg"; "rgb_20240101_000007_000006.jpg";
          "rgb_20240101_000008_000007.jpg" ]}%string
  /\ file_count "/data"
       (save_frames (config_with_max 0) eight fresh_filesystem) = 8%nat.
Proof.
  split; [vm_compute; reflexivity|].
  split; [vm_compute; reflexivity|].
  split; [vm_compute; reflexivity|].
  vm_compute; reflexivity.
Qed.

End ArtifactsFacts.

(** ** Laws of the configuration merge *)

Module ConfigLaws.
Import Config ConfigFacts Measure.

Lemma size_of_entry (d : gmap string pyval) (k : string) (v : pyval) :
  d !! k = Some v -> (pyval_size v < pyval_size (PDict d))%nat.
Proof.
  simpl. intros H. apply Nat.lt_succ_r. revert k v H.
  apply (map_fold_weak_ind
           (fun (r : nat) (m : gmap string pyval) =>
              forall k v, m !! k = Some v -> (pyval_size v <= r)%nat)).
  - intros k v H. rewrite lookup_empty in H. discriminate.
  - intros i x m r Hi IH k v H.
    destruct (decide (i = k)) as [->|Hne].
    + rewrite lookup_insert_eq in H. injection H as ->. lia.
    + rewrite lookup_insert_ne in H by assumption.
      specialize (IH k v H). lia.
Qed.

Lemma merge_empty_user (default : gmap string pyval) :
  _merge_config default ∅ = default.
Proof. rewrite merge_config_unfold. apply map_fold_empty. Qed.

Lemma merge_empty_default (user : gmap string pyval) :
  _merge_config ∅ user = user.
Proof.
  apply map_eq. intros k. rewrite merge_config_lookup, lookup_empty.
  destruct (user !! k) as [v|]; [|reflexivity].
  destruct v; reflexivity.
Qed.

Lemma merge_self_bounded (n : nat) :
  forall d : gmap string pyval,
    (pyval_size (PDict d) < n)%nat -> _merge_config d d = d.
Proof.
  induction n as [|n IH]; intros d Hn; [lia|].
  apply map_eq. intros k. rewrite merge_config_lookup.
  destruct (d !! k) as [v|] eqn:Hk; [|reflexivity].
  f_equal. unfold merged_entry. destruct v; try reflexivity.
  f_equal. apply IH.
  pose proof (size_of_entry d k _ Hk). lia.
Qed.

Lemma merge_self (d : gmap string pyval) : _merge_config d d = d.
Proof. apply (merge_self_bounded (S (pyval_size (PDict d)))). lia. Qed.

Lemma merge_again_bounded (n : nat) :
  forall d u : gmap string pyval,
    (pyval_size (PDict d) < n)%nat ->
    _merge_config d (_merge_config d u) = _merge_config d u.
Proof.
  induction n as [|n IH]; intros d u Hn; [lia|].
  apply map_eq. intros k. rewrite (merge_config_lookup d (_merge_config d u)).
  rewrite (merge_config_lookup d u).
  destruct (u !! k) as [uv|] eqn:Hu.
  - f_equal. unfold merged_entry at 1 3.
    destruct (d !! k) as [dv|] eqn:Hd; [|destruct uv; reflexivity].
    destruct dv; try (destruct uv; reflexivity).
    destruct uv; try reflexivity.
    f_equal. apply IH.
    pose proof (size_of_entry d k _ Hd). lia.
  - destruct (d !! k) as [dv|] eqn:Hd; [|reflexivity].
    f_equal. unfold merged_entry. destruct dv; try reflexivity.
    f_equal. apply merge_self.
Qed.

(** X1.  An empty dictionary is neutral on both sides of the merge: an
    empty user file leaves the defaults as they are, and empty defaults give
    back the user dictionary. *)
Theorem X1_merge_empty (d : gmap string pyval) :
  _merge_config d ∅ = d /\ _merge_config ∅ d = d.
Proof. split; [apply merge_empty_user | apply merge_empty_default]. Qed.

(** X2.  The keys of the merged dictionary are the keys of the defaults
    together with the keys of the user dictionary: the merge neither drops
    nor invents a key. *)
Theorem X2_merge_keys (default user : gmap string pyval) :
  dom (_merge_config default user) = dom default ∪ dom user.
Proof. apply merge_dom. Qed.

(** X3.  Merging is idempotent: a dictionary merged with itself is
    unchanged, and merging a merged result over the same defaults once more
    changes nothing. *)
Theorem X3_merge_idempotent (d u : gmap string pyval) :
  _merge_config d d = d
  /\ _merge_config d (_merge_config d u) = _merge_config d u.
Proof.
  split; [apply merge_self|].
  apply (merge_again_bounded (S (pyval_size (PDict d)))). lia.
Qed.

Lemma load_config_again (f : config_file) :
  load_config (snd (load_config f)) = load_config f.
Proof.
  destruct f as [| |v].
  - simpl. rewrite merge_self. reflexivity.
  - reflexivity.
  - destruct v; reflexivity.
Qed.

(** X4.  Loading is stable: loading again right after a load returns the
    same configuration and leaves the file as the first load left it; and
    a file that holds the effective configuration loads to that same
    configuration. *)
Theorem X4_load_config_stable (f : config_file) :
  load_config (snd (load_config f)) = load_config f
  /\ fst (load_config (Parsed (PDict (fst (load_config f)))))
     = fst (load_config f).
Proof.
  split; [apply load_config_again|].
  destruct f as [| |v].
  - apply merge_self.
  - apply merge_self.
  - destruct v; try apply merge_self.
    apply (merge_again_bounded (S (pyval_size (PDict DEFAULT_CONFIG)))). lia.
Qed.

(** X5.  A setting of the user dictionary that is not itself a dictionary
    is the value read back as [merged[section][key]], whatever the defaults
    hold under that section. *)
Theorem X5_user_setting_wins (default user : gmap string pyval)
    (section key : string) (v : pyval) :
  subscript2 user section key = Some v ->
  (forall x, v <> PDict x) ->
  subscript2 (_merge_config default user) section key = Some v.
Proof.
  unfold subscript2. intros Hu Hleaf.
  destruct (user !! section) as [us|] eqn:Hs; [|discriminate].
  destruct us as [| | | | | |d]; try discriminate.
  rewrite merge_config_lookup, Hs. unfold merged_entry.
  destruct (default !! section) as [ds|]; [|exact Hu].
  destruct ds as [| | | | | |ds]; try exact Hu.
  rewrite (merge_config_lookup ds d key), Hu. f_equal. unfold merged_entry.
  destruct (ds !! key) as [dv|]; [|reflexivity].
  destruct dv; try reflexivity.
  destruct v; try reflexivity. exfalso. exact (Hleaf _ eq_refl).
Qed.

Lemma X5_witness :
  subscript2 example_override "camera" "fps" = Some (PInt 60)
  /\ subscript2 (_merge_config DEFAULT_CONFIG example_override)
                "camera" "fps" = Some (PInt 60).
Proof.
  assert (H : subscript2 example_override "camera" "fps" = Some (PInt 60))
    by reflexivity.
  split; [exact H|].
  apply (X5_user_setting_wins DEFAULT_CONFIG example_override
           "camera" "fps" (PInt 60) H).
  intros x Hx. discriminate Hx.
Defined.

(** X6.  A setting the user dictionary does not mention is read back as
    [merged[section][key]] exactly as the defaults have it, provided the
    user dictionary either lacks the section or holds a dictionary there;
    so a partial file never makes a default setting disappear. *)
Theorem X6_default_setting_kept (default user : gmap string pyval)
    (section key : string) :
  subscript2 user section key = None ->
  (forall v, user !! section = Some v -> exists us, v = PDict us) ->
  subscript2 (_merge_config default user) section key
  = subscript2 default section key.
Proof.
  unfold subscript2. intros Hu Hobj.
  rewrite merge_config_lookup.
  destruct (user !! section) as [us|] eqn:Hs; [|reflexivity].
  destruct (Hobj us eq_refl) as [us' ->].
  unfold merged_entry.
  destruct (default !! section) as [ds|]; [|exact Hu].
  destruct ds as [| | | | | |ds]; try exact Hu.
  rewrite merge_config_lookup, Hu. reflexivity.
Qed.

Lemma X6_witness :
  subscript2 example_override "camera" "rgb_resolution" = None
  /\ subscript2 (_merge_config DEFAULT_CONFIG example_override)
                "camera" "rgb_resolution"
     = Some (PList [PInt 1920; PInt 1080]).
Proof.
  assert (H : subscript2 example_override "camera" "rgb_resolution" = None)
    by reflexivity.
  split; [exact H|].
  rewrite (X6_default_setting_kept DEFAULT_CONFIG example_override
             "camera" "rgb_resolution" H).
  - reflexivity.
  - intros v Hv. unfold example_override in Hv.
    destruct (decide ("camera"%string = "camera"%string)) as [_|Hne];
      [|contradiction].
    rewrite lookup_singleton_eq in Hv. injection Hv as <-.
    eexists. reflexivity.
Defined.

End ConfigLaws.

(** ** Windows, counters and averages *)

Module StatsLaws.
Import Stats StatsFacts StatsRuns.

Lemma push_window_drop (capacity : nat) (x : Q) (history : list Q) :
  (length history <= capacity)%nat ->
  push_window capacity x history
  = drop (length (history ++ [x]) - capacity) (history ++ [x]).
Proof.
  intros H. unfold push_window.
  assert (Hl : length (history ++ [x]) = S (length history))
    by (rewrite length_app; simpl; lia).
  destruct (Nat.ltb_spec capacity (length (history ++ [x]))) as [Hlt|Hge].
  - replace (length (history ++ [x]) - capacity)%nat with 1%nat by lia.
    destruct (history ++ [x]); reflexivity.
  - replace (length (history ++ [x]) - capacity)%nat with 0%nat by lia.
    reflexivity.
Qed.

(** A window fed a run of values holds the newest [capacity] of them. *)
Lemma push_all_drop (capacity : nat) (xs : list Q) :
  forall history : list Q,
    (length history <= capacity)%nat ->
    push_all capacity xs history
    = drop (length (history ++ xs) - capacity) (history ++ xs).
Proof.
  induction xs as [|x xs IH]; intros history H.
  - simpl. rewrite app_nil_r.
    replace (length history - capacity)%nat with 0%nat by lia. reflexivity.
  - change (push_all capacity (x :: xs) history)
      with (push_all capacity xs (push_window capacity x history)).
    rewrite IH by (apply push_window_length; exact H).
    rewrite push_window_drop by exact H.
    assert (Hl : length (history ++ [x]) = S (length history))
      by (rewrite length_app; simpl; lia).
    set (j := (length (history ++ [x]) - capacity)%nat).
    assert (Hj : (j <= length (history ++ [x]))%nat) by (unfold j; lia).
    rewrite <- (drop_app_le (history ++ [x]) xs j Hj).
    rewrite drop_drop, length_drop.
    rewrite <- app_assoc. simpl.
    f_equal. subst j. rewrite !length_app. simpl. lia.
Qed.

Lemma last_of_drop (n : nat) (l : list Q) :
  (n < length l)%nat -> last (drop n l) = last l.
Proof.
  intros H. rewrite !last_lookup, lookup_drop, length_drop.
  f_equal. lia.
Qed.

Lemma perform_temperature (c : call) (st : DepthAIStats) :
  temperature_history (perform c st)
  = push_all 60 (readings [c]) (temperature_history st).
Proof.
  destruct c as [t| | |c]; simpl; try reflexivity.
  unfold update_frame_stats, float_inverse.
  destruct (Qltb 0 (last_frame_time st)); simpl; [|reflexivity].
  destruct (Qeq_bool (t - last_frame_time st) 0); reflexivity.
Qed.

Lemma perform_all_temperature (cs : list call) :
  forall st : DepthAIStats,
    temperature_history (perform_all cs st)
    = push_all 60 (readings cs) (temperature_history st).
Proof.
  induction cs as [|c cs IH]; intros st; [reflexivity|].
  change (perform_all (c :: cs) st) with (perform_all cs (perform c st)).
  rewrite IH, perform_temperature.
  destruct c; reflexivity.
Qed.

(** X7.  After any sequence of calls on a fresh aggregate, the temperature
    window holds the newest 60 readings in the order they were recorded, and
    current_temperature_c is the latest reading. *)
Theorem X7_temperature_window (cs : list call) (start now : Q) :
  temperature_history (perform_all cs (__init__ start))
  = drop (length (readings cs) - 60) (readings cs)
  /\ current_temperature_c (get_stats now (perform_all cs (__init__ start)))
     = last (readings cs).
Proof.
  assert (H : temperature_history (perform_all cs (__init__ start))
              = drop (length (readings cs) - 60) (readings cs)).
  { rewrite perform_all_temperature. simpl temperature_history.
    rewrite push_all_drop by (simpl; lia). reflexivity. }
  split; [exact H|].
  unfold get_stats. simpl. rewrite H.
  destruct (decide (length (readings cs) <= 60)%nat) as [Hle|Hgt].
  - replace (length (readings cs) - 60)%nat with 0%nat by lia. reflexivity.
  - apply last_of_drop. lia.
Qed.

Lemma update_frame_stats_rate (t : Q) (st : DepthAIStats) :
  (0 < last_frame_time st)%Q -> (last_frame_time st < t)%Q ->
  exists st',
    update_frame_stats t st = Ok st'
    /\ last_frame_time st' = t
    /\ fps_history st'
       = push_window 30 (1 / (t - last_frame_time st))%Q (fps_history st).
Proof.
  intros Hpos Hlt. unfold update_frame_stats, float_inverse.
  apply Qltb_lt in Hpos. rewrite Hpos.
  destruct (Qeq_bool (t - last_frame_time st) 0) eqn:Hz.
  - exfalso. apply Qeq_bool_iff in Hz. lra.
  - simpl. eexists. repeat split.
Qed.

Lemma update_frames_rates (times : list Q) :
  forall (previous : Q) (st : DepthAIStats),
    (0 < previous)%Q ->
    last_frame_time st = previous ->
    increasing (previous :: times) ->
    exists st',
      update_frames times st = Ok st'
      /\ fps_history st' = push_all 30 (rates previous times) (fps_history st).
Proof.
  induction times as [|t times IH]; intros previous st Hpos Hlast Hinc.
  - exists st. split; reflexivity.
  - destruct Hinc as [Hlt Hinc]. subst previous.
    destruct (update_frame_stats_rate t st Hpos Hlt)
      as (st1 & Hstep & Hlast1 & Hhist).
    destruct (IH t st1) as (st' & Hrun & Hhist'); [lra | exact Hlast1 | exact Hinc |].
    exists st'. simpl update_frames. rewrite Hstep. simpl.
    split; [exact Hrun|]. rewrite Hhist', Hhist. reflexivity.
Qed.

(** X8.  For frames at strictly increasing positive times, every call
    succeeds and the rate window holds the newest 30 of the rates
    1 / (gap between consecutive frames), in order; current_fps is the rate
    of the last gap. *)
Theorem X8_rate_window (first : Q) (times : list Q) (start now : Q) :
  (0 < first)%Q ->
  increasing (first :: times) ->
  exists st,
    update_frames (first :: times) (__init__ start) = Ok st
    /\ fps_history st
       = drop (length (rates first times) - 30) (rates first times)
    /\ current_fps (get_stats now st)
       = default 0%Q (last (rates first times)).
Proof.
  intros Hpos Hinc.
  destruct (update_frames_rates times first
              {| start_time := start; frame_count := 0 + 1; error_count := 0;
                 last_frame_time := first; fps_history := [];
                 imu_data_count := 0; temperature_history := [] |}
              Hpos eq_refl Hinc) as (st & Hrun & Hhist).
  exists st. split; [exact Hrun|].
  simpl in Hhist. rewrite push_all_drop in Hhist by (simpl; lia).
  simpl in Hhist. split; [exact Hhist|].
  unfold get_stats. simpl. rewrite Hhist.
  destruct (decide (length (rates first times) <= 30)%nat) as [Hle|Hgt].
  - replace (length (rates first times) - 30)%nat with 0%nat by lia.
    reflexivity.
  - rewrite last_of_drop by lia. reflexivity.
Qed.

Lemma X8_witness :
  (0 < 10)%Q /\ increasing [10; 12; 16]%Q
  /\ exists st, update_frames [10; 12; 16]%Q (__init__ 0) = Ok st
                /\ fps_history st = [1 / (12 - 10); 1 / (16 - 12)]%Q.
Proof.
  assert (Hpos : (0 < 10)%Q) by reflexivity.
  assert (Hinc : increasing [10; 12; 16]%Q)
    by (simpl; repeat split; reflexivity).
  split; [exact Hpos|]. split; [exact Hinc|].
  destruct (X8_rate_window 10 [12; 16]%Q 0 20 Hpos Hinc)
    as (st & Hrun & Hhist & _).
  exists st. split; [exact Hrun | exact Hhist].
Defined.

Lemma perform_counters (c : call) (st : DepthAIStats) :
  error_count (perform c st)
  = error_count st + (if is_error_call c then 1 else 0)
  /\ imu_data_count (perform c st)
     = imu_data_count st + (if is_imu_call c then 1 else 0)
  /\ frame_count st <= frame_count (perform c st)
     <= frame_count st + (if is_frame_call c then 1 else 0).
Proof.
  destruct c as [t| | |c]; simpl; try (repeat split; lia).
  unfold update_frame_stats, float_inverse.
  destruct (Qltb 0 (last_frame_time st)); simpl; [|repeat split; lia].
  destruct (Qeq_bool (t - last_frame_time st) 0); simpl; repeat split; lia.
Qed.

Lemma perform_all_counters (cs : list call) :
  forall st : DepthAIStats,
    error_count (perform_all cs st)
    = error_count st + count_calls is_error_call cs
    /\ imu_data_count (perform_all cs st)
       = imu_data_count st + count_calls is_imu_call cs
    /\ frame_count st <= frame_count (perform_all cs st)
       <= frame_count st + count_calls is_frame_call cs.
Proof.
  unfold count_calls.
  induction cs as [|c cs IH]; intros st; [simpl; repeat split; lia|].
  change (perform_all (c :: cs) st) with (perform_all cs (perform c st)).
  destruct (IH (perform c st)) as (He & Hi & Hf).
  destruct (perform_counters c st) as (He1 & Hi1 & Hf1).
  rewrite He, Hi, He1, Hi1. simpl List.filter.
  destruct c; simpl in *; repeat split; lia.
Qed.

(** X9.  After any sequence of calls on a fresh aggregate, error_count is
    the number of increment_error calls, imu_data_count the number of
    update_imu_stats calls, and total_frames lies between 0 and the number
    of update_frame_stats calls (a call that raises is not counted). *)
Theorem X9_counters (cs : list call) (start now : Q) :
  let s := get_stats now (perform_all cs (__init__ start)) in
  snap_error_count s = count_calls is_error_call cs
  /\ snap_imu_data_count s = count_calls is_imu_call cs
  /\ 0 <= total_frames s <= count_calls is_frame_call cs.
Proof.
  destruct (perform_all_counters cs (__init__ start)) as (He & Hi & Hf).
  simpl in *. repeat split; lia.
Qed.








End StatsLaws.

(** ** The health verdict in integers *)

Module HealthLaws.
Import Stats Health StatsFacts.

(** The test [error_count / total_frames > 0.1], for a positive total. *)
Lemma rate_test (e t : Z) :
  0 < t ->
  (Qltb (1 # 10) (inject_Z e / inject_Z t) = true <-> t < 10 * e).
Proof.
  intros Ht. rewrite Qltb_lt.
  destruct t as [|p|p]; try lia.
  unfold Qlt, Qdiv, Qmult, Qinv, inject_Z. simpl. lia.
Qed.

Lemma rate_test_bool (e t : Z) :
  0 < t -> Qltb (1 # 10) (inject_Z e / inject_Z t) = (t <? 10 * e).
Proof.
  intros Ht. pose proof (rate_test e t Ht) as H.
  destruct (Z.ltb_spec t (10 * e)) as [Hlt|Hge].
  - apply H. exact Hlt.
  - destruct (Qltb (1 # 10) (inject_Z e / inject_Z t)); [|reflexivity].
    destruct H as [H _]. specialize (H eq_refl). lia.
Qed.

(** The issue list, once frames were counted. *)
Lemma issues_counted (s : snapshot) :
  0 < total_frames s ->
  issues (_check_health s)
  = (if Qltb (current_fps s) 1 then [LowFrameRate] else [])
    ++ (if total_frames s <? 10 * snap_error_count s
        then [HighErrorRate (error_rate s)] else []).
Proof.
  intros Hpos. unfold _check_health, error_rate. simpl.
  rewrite (rate_test_bool _ _ Hpos).
  apply Z.ltb_lt in Hpos. rewrite Hpos, andb_true_r.
  destruct (Qltb (current_fps s) 1);
    destruct (total_frames s <? 10 * snap_error_count s); reflexivity.
Qed.

Lemma status_of_issues (s : snapshot) :
  status (_check_health s)
  = match issues (_check_health s) with [] => healthy | _ => degraded end.
Proof. reflexivity. Qed.

(** X11.  The verdict in terms of the counters: it is healthy exactly when
    no frame was counted, or current_fps is at least 1 and at most one
    frame in ten is an error (10 * error_count <= total_frames); it is
    degraded exactly when the issue list is not empty; the low-rate issue is
    listed exactly when frames were counted and current_fps is below 1; and
    there are never more than two issues. *)
Theorem X11_verdict (s : snapshot) :
  (status (_check_health s) = healthy
   <-> total_frames s <= 0
       \/ ((1 <= current_fps s)%Q
           /\ 10 * snap_error_count s <= total_frames s))
  /\ (status (_check_health s) = degraded <-> issues (_check_health s) <> [])
  /\ (In LowFrameRate (issues (_check_health s))
      <-> (current_fps s < 1)%Q /\ 0 < total_frames s)
  /\ (length (issues (_check_health s)) <= 2)%nat.
Proof.
  rewrite status_of_issues.
  destruct (Z.lt_ge_cases 0 (total_frames s)) as [Hpos|Hle].
  - rewrite (issues_counted s Hpos).
    destruct (Qltb (current_fps s) 1) eqn:Hfps;
      [apply Qltb_lt in Hfps | apply Qltb_ge in Hfps];
      (destruct (Z.ltb_spec (total_frames s) (10 * snap_error_count s))
         as [Herr|Herr]); simpl.
    + split; [|split; [|split]].
      * split; [discriminate | intros [H|[H _]]; [lia | lra]].
      * split; [discriminate | reflexivity].
      * split; [intros _; split; assumption | intros _; left; reflexivity].
      * lia.
    + split; [|split; [|split]].
      * split; [discriminate | intros [H|[H _]]; [lia | lra]].
      * split; [discriminate | reflexivity].
      * split; [intros _; split; assumption | intros _; left; reflexivity].
      * lia.
    + split; [|split; [|split]].
      * split; [discriminate | intros [H|[_ H]]; lia].
      * split; [discriminate | reflexivity].
      * split; [intros [H|[]]; discriminate H | intros [H _]; lra].
      * lia.
    + split; [|split; [|split]].
      * split; [intros _; right; split; assumption | reflexivity].
      * split; [discriminate | intros H; contradiction].
      * split; [intros [] | intros [H _]; lra].
      * lia.
  - assert (Hnone : issues (_check_health s) = []).
    { unfold _check_health. simpl.
      apply Z.ltb_ge in Hle. rewrite Hle, andb_false_r. reflexivity. }
    rewrite Hnone. simpl. split; [|split; [|split]].
    + split; [intros _; left; exact Hle | reflexivity].
    + split; [discriminate | intros H; contradiction].
    + split; [intros [] | intros [_ H]; lia].
    + lia.
Qed.

End HealthLaws.

(** ** The client against the daemon *)

Module ClientLaws.
Import Config ConfigFacts ConfigLaws Stats Health StatusFile.
Import Reload ReloadFacts Client.

(** The two merges of the repository compute the same dictionary. *)
Lemma deep_merge_is_merge (dict1 dict2 : gmap string pyval) :
  _deep_merge dict1 dict2 = _merge_config dict1 dict2.
Proof. reflexivity. Qed.




Lemma fps_section_lookup (fps : Z) (key : string) :
  ({[ "rgb_fps"%string := PInt fps ]} : gmap string pyval) !! key
  = if decide (key = "rgb_fps"%string) then Some (PInt fps) else None.
Proof.
  destruct (decide (key = "rgb_fps"%string)) as [->|Hne].
  - apply lookup_singleton_eq.
  - apply lookup_singleton_ne. congruence.
Qed.






(** X13.  What the client's [is_healthy] answers on the daemon's status
    path: on a completed publication it is true exactly when the published
    verdict is healthy; on a missing file and on the empty file that a
    publication in progress leaves it is false. *)
Theorem X13_client_is_healthy (now : Q) (pid : Z) (st : DepthAIStats)
    (c : content) :
  is_healthy (publish now pid st c)
  = Ok (match status (_check_health (get_stats now st)) with
        | healthy => true
        | degraded => false
        end)
  /\ is_healthy Absent = Ok false
  /\ (forall c', In c' (observable (_update_status now pid st) c) ->
                 c' <> publish now pid st c -> is_healthy c' = Ok false).
Proof.
  split; [|split].
  - unfold publish, _update_status. cbn [fold_left apply].
    generalize (_check_health (get_stats now st)). intros h.
    unfold is_healthy, get_status. simpl.
    destruct (status h); reflexivity.
  - reflexivity.
  - intros c' Hin Hne. simpl in Hin.
    destruct Hin as [<-|[<-|[]]]; [reflexivity|].
    exfalso. apply Hne. reflexivity.
Qed.

(** X14.  A reload without any change to the file changes nothing the
    daemon reads: right after start-up, [_reload_config] leaves every
    setting and the configuration file as they were. *)
Theorem X14_reload_without_change (path : string) (w : world)
    (section key : string) :
  let start := DepthAIDaemon__init__ path w in
  let after := _reload_config (fst start) (snd start) in
  daemon_setting (fst after) (snd after) section key
  = daemon_setting (fst start) (snd start) section key
  /\ files (snd after) = files (snd start).
Proof.
  intros start after. unfold after, start.
  unfold DepthAIDaemon__init__, _reload_config, DepthAIConfig__init__,
    daemon_setting.
  set (f0 := default Missing (files w !! path)).
  pose proof (load_config_again f0) as Hagain.
  destruct (load_config f0) as [cfg f1] eqn:E0. simpl in *.
  rewrite lookup_insert_eq. simpl.
  rewrite lookup_insert_eq. simpl. rewrite Hagain. simpl.
  rewrite !lookup_insert_eq. split; [reflexivity|].
  apply insert_insert_eq.
Qed.

(** ** [format_uptime] *)

Lemma Qfloor_div_pos (q : Q) (m : Z) :
  0 < m -> Qfloor (q / inject_Z m) = Qfloor q / m.
Proof.
  intros Hm. destruct q as [n d]. destruct m as [|p|p]; try lia.
  unfold Qdiv, Qinv, inject_Z, Qmult, Qfloor. simpl.
  rewrite Z.mul_1_r, Pos2Z.inj_mul. symmetry. apply Z.div_div; lia.
Qed.

Lemma Qfloor_sub_Z (q : Q) (z : Z) :
  Qfloor (q - inject_Z z) = Qfloor q - z.
Proof.
  destruct q as [n d].
  unfold Qminus, Qplus, Qopp, inject_Z, Qfloor. simpl.
  rewrite Pos.mul_1_r, Z.mul_1_r.
  replace (n + - z * Z.pos d) with (n + (- z) * Z.pos d) by lia.
  rewrite Z.div_add by lia. lia.
Qed.

Lemma float_mod_floor (q : Q) (m : Z) :
  0 < m -> Qfloor (float_mod q (inject_Z m)) = Qfloor q mod m.
Proof.
  intros Hm. unfold float_mod.
  assert (H : (q - inject_Z m * inject_Z (Qfloor (q / inject_Z m))
               == q - inject_Z (m * Qfloor (q / inject_Z m)))%Q).
  { rewrite inject_Z_mult. reflexivity. }
  rewrite (Qfloor_comp _ _ H), Qfloor_sub_Z, Qfloor_div_pos by exact Hm.
  rewrite Z.mod_eq by lia. reflexivity.
Qed.

Lemma float_mod_nonneg (q : Q) (m : Z) :
  0 < m -> (0 <= float_mod q (inject_Z m))%Q.
Proof.
  intros Hm.
  pose proof (Qfloor_le (float_mod q (inject_Z m))) as H.
  rewrite float_mod_floor in H by exact Hm.
  pose proof (Z.mod_pos_bound (Qfloor q) m Hm) as [H0 _].
  apply (Qle_trans _ (inject_Z (Qfloor q mod m))); [|exact H].
  change 0%Q with (inject_Z 0). rewrite <- Zle_Qle. exact H0.
Qed.

Lemma int_of_float_Z (z : Z) : int_of_float (inject_Z z) = z.
Proof.
  unfold int_of_float. destruct (Qle_bool 0 (inject_Z z)).
  - apply Qfloor_Z.
  - apply Qceiling_Z.
Qed.

Lemma int_of_float_nonneg (q : Q) :
  (0 <= q)%Q -> int_of_float q = Qfloor q.
Proof.
  intros H. unfold int_of_float.
  apply Qle_bool_iff in H. rewrite H. reflexivity.
Qed.

(** The fields are the digits of the whole seconds. *)
Lemma uptime_fields_floor (seconds : Q) :
  uptime_fields seconds
  = {| days := Qfloor seconds / 86400;
       hours := (Qfloor seconds mod 86400) / 3600;
       minutes := (Qfloor seconds mod 3600) / 60;
       secs := Qfloor seconds mod 60 |}.
Proof.
  unfold uptime_fields, floordiv.
  rewrite !int_of_float_Z.
  change 86400%Q with (inject_Z 86400).
  change 3600%Q with (inject_Z 3600).
  change 60%Q with (inject_Z 60).
  rewrite (int_of_float_nonneg (float_mod seconds (inject_Z 60)))
    by (apply float_mod_nonneg; lia).
  rewrite !Qfloor_div_pos, !float_mod_floor by lia.
  reflexivity.
Qed.

(** X26.  What [format_uptime] prints for an uptime that is not
    negative: the four numbers are the days, hours, minutes and seconds of
    the whole seconds, hours below 24, minutes and seconds below 60, and
    they add up to the uptime rounded down; the fraction of a second never
    shows. *)
Theorem X26_format_uptime (seconds : Q) :
  (0 <= seconds)%Q ->
  let f := uptime_fields seconds in
  0 <= days f
  /\ 0 <= hours f < 24
  /\ 0 <= minutes f < 60
  /\ 0 <= secs f < 60
  /\ days f * 86400 + hours f * 3600 + minutes f * 60 + secs f
     = Qfloor seconds
  /\ format_uptime seconds = format_uptime (inject_Z (Qfloor seconds)).
Proof.
  intros H0 f.
  assert (HF : 0 <= Qfloor seconds).
  { rewrite <- (Qfloor_Z 0). apply Qfloor_resp_le. exact H0. }
  assert (Hf : f = uptime_fields (inject_Z (Qfloor seconds))).
  { unfold f. rewrite !uptime_fields_floor, Qfloor_Z. reflexivity. }
  split; [|split; [|split; [|split; [|split]]]].
  6: { unfold format_uptime. fold f. rewrite <- Hf. reflexivity. }
  all: unfold f; rewrite uptime_fields_floor; simpl.
  all: generalize dependent (Qfloor seconds); clear; intros F HF.
  all: Z.to_euclidean_division_equations; lia.
Qed.

Lemma X26_witness :
  let f := uptime_fields (181801 # 2) in
  (0 <= 181801 # 2)%Q
  /\ (0 <= days f
      /\ 0 <= hours f < 24
      /\ 0 <= minutes f < 60
      /\ 0 <= secs f < 60
      /\ days f * 86400 + hours f * 3600 + minutes f * 60 + secs f
         = Qfloor (181801 # 2)
      /\ format_uptime (181801 # 2)
         = format_uptime (inject_Z (Qfloor (181801 # 2)))).
Proof.
  intros f.
  assert (H : (0 <= 181801 # 2)%Q) by (vm_compute; discriminate).
  split; [exact H|].
  exact (X26_format_uptime (181801 # 2) H).
Defined.

End ClientLaws.

(** ** What the sweep and the two saves do to the file system *)

Module ArtifactsLaws.
Import Artifacts ArtifactsFacts Files.

Lemma unlink_all_elsewhere (path path' : string) (files : list (string * Q)) :
  forall fs : filesystem,
    path' <> path ->
    fold_left (fun fs' file => unlink path fs' (fst file)) files fs !! path'
    = fs !! path'.
Proof.
  induction files as [|f files IH]; intros fs Hne; [reflexivity|].
  simpl. rewrite IH by exact Hne. unfold unlink.
  destruct (fs !! path); [|reflexivity].
  apply lookup_insert_ne. congruence.
Qed.

Lemma delete_all_other (files : list (string * Q)) (name : string) :
  forall d : gmap string Q,
    name ∉ files.*1 -> delete_all files d !! name = d !! name.
Proof.
  induction files as [|f files IH]; intros d Hnot; [reflexivity|].
  simpl in *. apply not_elem_of_cons in Hnot. destruct Hnot as [Hf Hnot].
  unfold delete_all in *. simpl. rewrite IH by exact Hnot.
  apply lookup_delete_ne. congruence.
Qed.

Lemma unlink_all_ctime (path path' name : string)
    (files : list (string * Q)) (fs : filesystem) :
  path' <> path \/ name ∉ files.*1 ->
  ctime_of path' name
    (fold_left (fun fs' file => unlink path fs' (fst file)) files fs)
  = ctime_of path' name fs.
Proof.
  intros H. unfold ctime_of.
  destruct (decide (path' = path)) as [->|Hne].
  - destruct H as [H|H]; [contradiction|].
    destruct (fs !! path) as [d|] eqn:Hd.
    + rewrite (unlink_all path files fs d Hd).
      apply delete_all_other. exact H.
    + assert (Hnone : fold_left (fun fs' file => unlink path fs' (fst file))
                        files fs = fs).
      { clear H. induction files as [|f files IH]; [reflexivity|].
        simpl. unfold unlink at 2. rewrite Hd. exact IH. }
      rewrite Hnone, Hd. reflexivity.
  - rewrite unlink_all_elsewhere by exact Hne. reflexivity.
Qed.

Lemma slice_until_subseteq {A : Type} (stop : Z) (l : list A) :
  slice_until stop l ⊆ l.
Proof. unfold slice_until. destruct (stop <? 0); apply subseteq_take. Qed.

(** X15.  The sweep touches nothing but .jpg files of the directory it is
    given: a file of another directory, and a file whose name does not end
    in .jpg, keeps its place and its creation time, whatever the
    configuration holds. *)
Theorem X15_sweep_scope (cfg : gmap string pyval) (path path' name : string)
    (fs : filesystem) :
  path' <> path \/ ends_with ".jpg" name = false ->
  ctime_of path' name (_cleanup_old_files cfg path fs)
  = ctime_of path' name fs.
Proof.
  intros H. unfold _cleanup_old_files.
  destruct (subscript2 cfg "output" "max_files" ≫= python_int)
    as [max_files|]; [|reflexivity].
  destruct (max_files <? _); [|reflexivity].
  apply unlink_all_ctime.
  destruct H as [H|H]; [left; exact H|]. right.
  intros Hin. apply list_elem_of_fmap in Hin.
  destruct Hin as ([k x] & -> & Hin). simpl in H.
  apply slice_until_subseteq in Hin.
  rewrite sorted_by_ctime_perm in Hin.
  apply glob_jpg_entry in Hin. destruct Hin as [_ Hjpg].
  unfold is_jpg in Hjpg. simpl in Hjpg. rewrite H in Hjpg. exact Hjpg.
Qed.

Lemma X15_witness :
  let fs : filesystem :=
    {[ "/data"%string := {[ "notes.txt"%string := 1%Q;
                            "rgb_a.jpg"%string := 2%Q;
                            "rgb_b.jpg"%string := 3%Q ]} ]} in
  ends_with ".jpg" "notes.txt" = false
  /\ ctime_of "/data" "notes.txt"
       (_cleanup_old_files (config_with_max 1) "/data" fs) = Some 1%Q.
Proof.
  intros fs.
  assert (H : ends_with ".jpg" "notes.txt" = false) by reflexivity.
  split; [exact H|].
  rewrite (X15_sweep_scope (config_with_max 1) "/data" "/data" "notes.txt" fs
             (or_intror H)).
  reflexivity.
Defined.

(** X16.  The sweep, for a positive [max_files]: the .jpg files it leaves
    are the newest [max_files] of those it found, in the order of creation
    times; they are at most [max_files]; and no file it removed is newer
    than a file it kept. *)
Theorem X16_sweep_keeps_newest (cfg : gmap string pyval) (path : string)
    (fs : filesystem) (m : Z) :
  subscript2 cfg "output" "max_files" = Some (PInt m) ->
  0 < m ->
  let files := sorted_by_ctime (glob_jpg path fs) in
  let left := glob_jpg path (_cleanup_old_files cfg path fs) in
  left ≡ₚ drop (length files - Z.to_nat m) files
  /\ Z.of_nat (length left) <= m
  /\ (forall kept gone,
        kept ∈ left -> gone ∈ glob_jpg path fs -> gone ∉ left ->
        ctime_le gone kept).
Proof.
  intros Hm Hpos files left. split; [|split].
  - apply cleanup_keeps_newest; assumption.
  - apply cleanup_bound; assumption.
  - intros kept gone Hk Hg Hn.
    apply (cleanup_oldest_first cfg path fs m kept gone); assumption.
Qed.

Lemma X16_witness :
  let fs : filesystem :=
    {[ "/data"%string := {[ "rgb_a.jpg"%string := 1%Q;
                            "rgb_b.jpg"%string := 2%Q;
                            "rgb_c.jpg"%string := 3%Q ]} ]} in
  subscript2 (config_with_max 2) "output" "max_files" = Some (PInt 2)
  /\ 0 < 2
  /\ Z.of_nat (length (glob_jpg "/data"
                         (_cleanup_old_files (config_with_max 2) "/data" fs)))
     <= 2.
Proof.
  intros fs.
  assert (Hm : subscript2 (config_with_max 2) "output" "max_files"
               = Some (PInt 2)) by reflexivity.
  assert (Hpos : 0 < 2) by lia.
  split; [exact Hm|]. split; [exact Hpos|].
  exact (proj1 (proj2 (X16_sweep_keeps_newest (config_with_max 2) "/data"
                         fs 2 Hm Hpos))).
Defined.

Lemma cleanup_noop (cfg : gmap string pyval) (path : string)
    (fs : filesystem) (m : Z) :
  subscript2 cfg "output" "max_files" = Some (PInt m) ->
  m = 0 \/ Z.of_nat (length (glob_jpg path fs)) <= m ->
  _cleanup_old_files cfg path fs = fs.
Proof.
  intros Hm H. unfold _cleanup_old_files. rewrite Hm. simpl.
  assert (Hlen : length (sorted_by_ctime (glob_jpg path fs))
                 = length (glob_jpg path fs))
    by (rewrite sorted_by_ctime_perm; reflexivity).
  rewrite Hlen.
  destruct (Z.ltb_spec m (Z.of_nat (length (glob_jpg path fs))))
    as [Hlt|Hge]; [|reflexivity].
  destruct H as [->|H]; [|lia].
  reflexivity.
Qed.

(** X17.  When the sweep does nothing: if the directory holds no more
    than [max_files] .jpg files the file system is returned as it is; and
    with [max_files] = 0 it is returned as it is as well, however many
    files there are, because the slice [files[:-0]] is empty. *)
Theorem X17_sweep_noop (cfg : gmap string pyval) (path : string)
    (fs : filesystem) (m : Z) :
  subscript2 cfg "output" "max_files" = Some (PInt m) ->
  m = 0 \/ Z.of_nat (length (glob_jpg path fs)) <= m ->
  _cleanup_old_files cfg path fs = fs.
Proof. apply cleanup_noop. Qed.

Lemma X17_witness :
  let fs : filesystem :=
    {[ "/data"%string := {[ "rgb_a.jpg"%string := 1%Q;
                            "rgb_b.jpg"%string := 2%Q ]} ]} in
  subscript2 (config_with_max 0) "output" "max_files" = Some (PInt 0)
  /\ _cleanup_old_files (config_with_max 0) "/data" fs = fs.
Proof.
  intros fs.
  assert (Hm : subscript2 (config_with_max 0) "output" "max_files"
               = Some (PInt 0)) by reflexivity.
  split; [exact Hm|].
  exact (X17_sweep_noop (config_with_max 0) "/data" fs 0 Hm
           (or_introl eq_refl)).
Defined.

(** X18.  A frame saved into a directory that does not exist is lost
    without a trace: [_save_frame] returns the file system unchanged, and
    does not create the directory. *)
Theorem X18_save_frame_missing_directory (cfg : gmap string pyval)
    (output_dir frame_type timestamp : string) (frame_count : Z) (now : Q)
    (fs : filesystem) :
  subscript2 cfg "output" "output_directory" = Some (PStr output_dir) ->
  fs !! output_dir = None ->
  _save_frame cfg frame_type timestamp frame_count now fs = fs.
Proof.
  intros Hdir Hnone. unfold _save_frame. rewrite Hdir.
  unfold write_file. rewrite Hnone.
  unfold _cleanup_old_files, glob_jpg. rewrite Hnone. simpl.
  rewrite map_to_list_empty. simpl.
  destruct (subscript2 cfg "output" "max_files" ≫= python_int)
    as [max_files|]; [|reflexivity].
  destruct (max_files <? Z.of_nat 0); [|reflexivity].
  unfold slice_until.
  change (sorted_by_ctime (filter is_jpg [])) with (@nil (string * Q)).
  destruct (- max_files <? 0); rewrite take_nil; reflexivity.
Qed.

Lemma X18_witness :
  subscript2 (config_with_max 5) "output" "output_directory"
  = Some (PStr "/data")
  /\ (∅ : filesystem) !! "/data"%string = None
  /\ _save_frame (config_with_max 5) "rgb" "20240101_000001" 0 1%Q ∅ = ∅.
Proof.
  assert (Hdir : subscript2 (config_with_max 5) "output" "output_directory"
                 = Some (PStr "/data")) by reflexivity.
  assert (Hnone : (∅ : filesystem) !! "/data"%string = None)
    by apply lookup_empty.
  split; [exact Hdir|]. split; [exact Hnone|].
  exact (X18_save_frame_missing_directory (config_with_max 5) "/data" "rgb"
           "20240101_000001" 0 1%Q ∅ Hdir Hnone).
Defined.

(** X19.  [_save_imu_data] always leaves its file behind: afterwards the
    imu directory exists and holds imu_<timestamp>.json with the creation
    time of the write, whether or not the directory existed before; every
    other file keeps its creation time. *)
Theorem X19_save_imu_writes (cfg : gmap string pyval)
    (output_dir timestamp : string) (now : Q) (fs : filesystem) :
  subscript2 cfg "output" "output_directory" = Some (PStr output_dir) ->
  let after := _save_imu_data cfg timestamp now fs in
  let imu_dir := path_join output_dir "imu" in
  ctime_of imu_dir (imu_name timestamp) after = Some now
  /\ (forall path name,
        (path, name) <> (imu_dir, imu_name timestamp) ->
        ctime_of path name after = ctime_of path name fs).
Proof.
  intros Hdir after imu_dir. unfold after, _save_imu_data. rewrite Hdir.
  fold imu_dir. fold (imu_name timestamp).
  unfold ctime_of, write_file, makedirs. split.
  - destruct (fs !! imu_dir) as [d|] eqn:Hd.
    + rewrite Hd, lookup_insert_eq. apply lookup_insert_eq.
    + rewrite lookup_insert_eq, lookup_insert_eq. apply lookup_insert_eq.
  - intros path name Hne.
    destruct (fs !! imu_dir) as [d|] eqn:Hd.
    + rewrite Hd. destruct (decide (path = imu_dir)) as [->|Hp].
      * rewrite lookup_insert_eq, Hd. apply lookup_insert_ne. congruence.
      * rewrite lookup_insert_ne by congruence. reflexivity.
    + rewrite lookup_insert_eq. destruct (decide (path = imu_dir)) as [->|Hp].
      * rewrite lookup_insert_eq, Hd.
        rewrite lookup_insert_ne by congruence. apply lookup_empty.
      * rewrite !lookup_insert_ne by congruence. reflexivity.
Qed.

Lemma X19_witness :
  subscript2 (config_with_max 5) "output" "output_directory"
  = Some (PStr "/data")
  /\ ctime_of "/data/imu" "imu_20240101_000001_000000.json"
       (_save_imu_data (config_with_max 5) "20240101_000001_000000" 7%Q ∅)
     = Some 7%Q.
Proof.
  assert (Hdir : subscript2 (config_with_max 5) "output" "output_directory"
                 = Some (PStr "/data")) by reflexivity.
  split; [exact Hdir|].
  exact (proj1 (X19_save_imu_writes (config_with_max 5) "/data"
                  "20240101_000001_000000" 7%Q ∅ Hdir)).
Defined.

(** *** Names *)

Lemma string_length_append (a b : string) :
  String.length (a ++ b) = (String.length a + String.length b)%nat.
Proof. induction a as [|c a IH]; simpl; [reflexivity | rewrite IH; reflexivity]. Qed.

(** A suffix test looks at the end of the name only. *)
Lemma ends_with_append (suffix a b : string) :
  (String.length suffix <= String.length b)%nat ->
  ends_with suffix (a ++ b) = ends_with suffix b.
Proof.
  intros H. induction a as [|c a IH]; [reflexivity|].
  rewrite <- IH. unfold ends_with.
  change (String.length (String c a ++ b)) with (S (String.length (a ++ b))).
  pose proof (string_length_append a b) as Hl.
  destruct (Nat.leb_spec (String.length suffix) (String.length (a ++ b)))
    as [Hle|Hgt]; [|lia].
  destruct (Nat.leb_spec (String.length suffix) (S (String.length (a ++ b))))
    as [_|Hgt]; [|lia].
  simpl andb. f_equal.
  replace (S (String.length (a ++ b)) - String.length suffix)%nat
    with (S (String.length (a ++ b) - String.length suffix)) by lia.
  reflexivity.
Qed.

Lemma frame_name_is_jpg (frame_type timestamp : string) (frame_count : Z) :
  ends_with ".jpg" (frame_name frame_type timestamp frame_count) = true.
Proof.
  unfold frame_name.
  rewrite ends_with_append by (rewrite !string_length_append; simpl; lia).
  rewrite ends_with_append by (rewrite !string_length_append; simpl; lia).
  rewrite ends_with_append by (rewrite !string_length_append; simpl; lia).
  rewrite ends_with_append by (rewrite !string_length_append; simpl; lia).
  rewrite ends_with_append by (simpl; lia).
  reflexivity.
Qed.

Lemma imu_name_is_not_jpg (timestamp : string) :
  ends_with ".jpg" (imu_name timestamp) = false.
Proof.
  unfold imu_name.
  rewrite ends_with_append by (rewrite !string_length_append; simpl; lia).
  rewrite ends_with_append by (simpl; lia).
  reflexivity.
Qed.

(** *** The frame just written *)

Lemma newest_is_kept (cfg : gmap string pyval) (path : string)
    (fs : filesystem) (m : Z) (d : gmap string Q) (name : string) (now : Q) :
  subscript2 cfg "output" "max_files" = Some (PInt m) ->
  0 < m ->
  fs !! path = Some d ->
  d !! name = Some now ->
  ends_with ".jpg" name = true ->
  (forall k x, k <> name -> d !! k = Some x -> (x < now)%Q) ->
  ctime_of path name (_cleanup_old_files cfg path fs) = Some now.
Proof.
  intros Hm Hpos Hd Hname Hjpg Holder.
  pose proof (cleanup_keeps_newest cfg path fs m Hm Hpos) as Hperm.
  simpl in Hperm.
  set (files := sorted_by_ctime (glob_jpg path fs)) in *.
  set (j := (length files - Z.to_nat m)%nat) in *.
  assert (Hentry : forall y, y ∈ files -> d !! fst y = Some (snd y)).
  { intros [k x] Hy. unfold files in Hy. rewrite sorted_by_ctime_perm in Hy.
    apply glob_jpg_entry in Hy. rewrite Hd in Hy. apply Hy. }
  assert (Hin : (name, now) ∈ files).
  { unfold files. rewrite sorted_by_ctime_perm. unfold glob_jpg.
    rewrite Hd. apply list_elem_of_filter. split.
    - unfold is_jpg. simpl. rewrite Hjpg. exact I.
    - apply elem_of_map_to_list. exact Hname. }
  assert (Hkept : (name, now) ∈ drop j files).
  { rewrite <- (take_drop j files) in Hin.
    apply elem_of_app in Hin. destruct Hin as [Hin|Hin]; [|exact Hin].
    destruct (drop j files) as [|y rest] eqn:Hdrop.
    - exfalso.
      assert (Hlen : length (drop j files) = 0%nat) by (rewrite Hdrop; reflexivity).
      rewrite length_drop in Hlen.
      assert (Hpos' : (0 < length files)%nat).
      { apply elem_of_take in Hin. destruct Hin as (i & Hi & _).
        apply lookup_lt_Some in Hi. lia. }
      unfold j in Hlen. lia.
    - assert (Hy : y ∈ files).
      { rewrite <- (take_drop j files), Hdrop. apply elem_of_app. right. left. }
      assert (Hle : ctime_le (name, now) y).
      { apply (StronglySorted_app_1_elem_of ctime_le (take j files)
                 (y :: rest)); [|exact Hin|left].
        rewrite <- Hdrop, take_drop. apply sorted_by_ctime_sorted. }
      specialize (Hentry y Hy). destruct y as [k x]. simpl in *.
      destruct (decide (k = name)) as [->|Hne].
      + rewrite Hname in Hentry. injection Hentry as <-. left.
      + exfalso. specialize (Holder k x Hne Hentry).
        unfold ctime_le in Hle. simpl in Hle. lra. }
  rewrite <- Hperm in Hkept. apply glob_jpg_entry in Hkept.
  destruct Hkept as [Hkept _]. unfold ctime_of.
  destruct (_cleanup_old_files cfg path fs !! path) as [d'|]; [exact Hkept|].
  simpl in Hkept. rewrite lookup_empty in Hkept. discriminate.
Qed.

(** X20.  A completed [_save_frame], for a positive [max_files]: the
    output directory then holds at most [max_files] .jpg files; and when
    the directory exists and every file in it is older than the write, the
    frame just written is among them, so a sweep never evicts the frame
    that triggered it. *)
Theorem X20_save_frame_result (cfg : gmap string pyval)
    (output_dir frame_type timestamp : string) (frame_count m : Z) (now : Q)
    (fs : filesystem) :
  subscript2 cfg "output" "output_directory" = Some (PStr output_dir) ->
  subscript2 cfg "output" "max_files" = Some (PInt m) ->
  0 < m ->
  let after := _save_frame cfg frame_type timestamp frame_count now fs in
  Z.of_nat (length (glob_jpg output_dir after)) <= m
  /\ (forall d,
        fs !! output_dir = Some d ->
        (forall k x, d !! k = Some x -> (x < now)%Q) ->
        ctime_of output_dir (frame_name frame_type timestamp frame_count) after
        = Some now).
Proof.
  intros Hdir Hm Hpos after. split.
  - apply (save_frame_bound cfg output_dir m); assumption.
  - intros d Hd Holder. unfold after, _save_frame. rewrite Hdir.
    fold (frame_name frame_type timestamp frame_count).
    unfold write_file. rewrite Hd.
    apply (newest_is_kept cfg output_dir _ m
             (<[frame_name frame_type timestamp frame_count := now]> d));
      try assumption.
    + apply lookup_insert_eq.
    + apply lookup_insert_eq.
    + apply frame_name_is_jpg.
    + intros k x Hne Hk. rewrite lookup_insert_ne in Hk by congruence.
      apply (Holder k x Hk).
Qed.

Lemma X20_witness :
  let fs : filesystem :=
    {[ "/data"%string := {[ "rgb_a.jpg"%string := 1%Q;
                            "rgb_b.jpg"%string := 2%Q ]} ]} in
  subscript2 (config_with_max 2) "output" "output_directory"
  = Some (PStr "/data")
  /\ subscript2 (config_with_max 2) "output" "max_files" = Some (PInt 2)
  /\ 0 < 2
  /\ Z.of_nat (length (glob_jpg "/data"
         (_save_frame (config_with_max 2) "rgb" "20240101_000003" 2 3%Q fs)))
     <= 2.
Proof.
  intros fs.
  assert (Hdir : subscript2 (config_with_max 2) "output" "output_directory"
                 = Some (PStr "/data")) by reflexivity.
  assert (Hm : subscript2 (config_with_max 2) "output" "max_files"
               = Some (PInt 2)) by reflexivity.
  assert (Hpos : 0 < 2) by lia.
  split; [exact Hdir|]. split; [exact Hm|]. split; [exact Hpos|].
  exact (proj1 (X20_save_frame_result (config_with_max 2) "/data" "rgb"
                  "20240101_000003" 2 2 3%Q fs Hdir Hm Hpos)).
Defined.

End ArtifactsLaws.

(** ** The dispatch loop *)

Module DispatchLaws.
Import Stats StatsFacts Artifacts ArtifactsFacts Files ArtifactsLaws.
Import Supervisor Dispatch.

(** *** The gate on [save_frames] *)

Lemma handle_imu_gate (cfg : gmap string pyval) (v : pyval)
    (packets : list (string * Q)) :
  setting cfg "output" "save_frames" = Ok v ->
  truthy v = false ->
  forall (st : DepthAIStats) (fs : filesystem),
    snd (fst (_handle_imu_data cfg packets st fs)) = fs.
Proof.
  intros Hs Hv. induction packets as [|p packets IH]; intros st fs.
  - reflexivity.
  - simpl. rewrite Hs, Hv. apply IH.
Qed.

Lemma iteration_gate (cfg : gmap string pyval) (queues : gset string)
    (v : pyval) (p : poll) (s : dispatch) :
  setting cfg "output" "save_frames" = Ok v ->
  truthy v = false ->
  d_fs (iteration cfg queues p s) = d_fs s.
Proof.
  intros Hs Hv. unfold iteration, try_iteration, _handle_frame.
  rewrite Hs. simpl. rewrite Hv.
  destruct (rgb p); destruct (decide ("rgb"%string ∈ queues));
    destruct (depth p); destruct (decide ("depth"%string ∈ queues));
    destruct (imu p) as [packets|];
    destruct (decide ("imu"%string ∈ queues)); simpl.
  all: try (destruct (update_frame_stats (tick p) (d_stats s)); reflexivity).
  all: pose proof (handle_imu_gate cfg v packets Hs Hv (d_stats s) (d_fs s))
         as Hg;
       destruct (_handle_imu_data cfg packets (d_stats s) (d_fs s))
         as [[st3 fs3] r]; simpl in Hg; subst fs3;
       destruct r; [destruct (update_frame_stats (tick p) st3)|];
       reflexivity.
Qed.

Lemma process_frames_fold (cfg : gmap string pyval) (queues : gset string)
    (polls : list poll) (P : dispatch -> Prop) :
  (forall p s, P s -> P (iteration cfg queues p s)) ->
  forall s, P s ->
    P (fold_left (fun s p => iteration cfg queues p s) polls s).
Proof.
  intros Hstep. induction polls as [|p polls IH]; intros s Hs; [exact Hs|].
  simpl. apply IH. apply Hstep. exact Hs.
Qed.

(** X21.  With [save_frames] false (or any value Python takes as false)
    the dispatch loop never touches the file system, whatever the queues
    deliver. *)
Theorem X21_dispatch_gate (cfg : gmap string pyval) (queues : gset string)
    (v : pyval) (polls : list poll) (st : DepthAIStats) (fs : filesystem) :
  subscript2 cfg "output" "save_frames" = Some v ->
  truthy v = false ->
  d_fs (_process_frames cfg queues polls st fs) = fs.
Proof.
  intros Hs Hv.
  assert (Hset : setting cfg "output" "save_frames" = Ok v)
    by (unfold setting; rewrite Hs; reflexivity).
  unfold _process_frames.
  apply (process_frames_fold cfg queues polls (fun s => d_fs s = fs));
    [|reflexivity].
  intros p s H. rewrite (iteration_gate cfg queues v p s Hset Hv). exact H.
Qed.

Lemma X21_witness :
  let polls :=
    [ {| rgb := Some ("20240101_000001"%string, 1%Q); depth := None;
         detections := None;
         imu := Some [("20240101_000001_000000"%string, 1%Q)];
         tick := 1%Q |} ] in
  subscript2 Config.DEFAULT_CONFIG "output" "save_frames"
  = Some (PBool false)
  /\ d_fs (_process_frames Config.DEFAULT_CONFIG {[ "rgb"; "imu" ]}%string
             polls (Stats.__init__ 0) fresh_filesystem)
     = fresh_filesystem.
Proof.
  intros polls.
  assert (Hs : subscript2 Config.DEFAULT_CONFIG "output" "save_frames"
               = Some (PBool false)) by reflexivity.
  split; [exact Hs|].
  exact (X21_dispatch_gate Config.DEFAULT_CONFIG _ (PBool false) polls
           (Stats.__init__ 0) fresh_filesystem Hs eq_refl).
Defined.

(** *** Counting *)

Lemma handle_imu_counts (cfg : gmap string pyval) (v : pyval)
    (packets : list (string * Q)) :
  setting cfg "output" "save_frames" = Ok v ->
  forall (st : DepthAIStats) (fs : filesystem),
    exists st' fs',
      _handle_imu_data cfg packets st fs = (st', fs', Ok tt)
      /\ imu_data_count st' = imu_data_count st + Z.of_nat (length packets)
      /\ frame_count st' = frame_count st
      /\ error_count st' = error_count st.
Proof.
  intros Hs. induction packets as [|p packets IH]; intros st fs.
  - exists st, fs. simpl. repeat split. lia.
  - simpl _handle_imu_data. rewrite Hs.
    destruct (IH (update_imu_stats st)
                (if truthy v then _save_imu_data cfg (fst p) (snd p) fs
                 else fs)) as (st' & fs' & Hr & Hi & Hf & He).
    exists st', fs'. split; [exact Hr|]. simpl in *.
    repeat split; lia.
Qed.

Lemma update_frame_stats_counts (t : Q) (st st' : DepthAIStats) :
  update_frame_stats t st = Ok st' ->
  frame_count st' = frame_count st + 1
  /\ error_count st' = error_count st
  /\ imu_data_count st' = imu_data_count st.
Proof.
  unfold update_frame_stats, float_inverse. intros H.
  destruct (Qltb 0 (last_frame_time st)); simpl in H.
  - destruct (Qeq_bool (t - last_frame_time st) 0); simpl in H;
      [discriminate|].
    injection H as <-. repeat split.
  - injection H as <-. repeat split.
Qed.

(** The [try] block, up to the tick: with [save_frames] readable, the
    handlers return and only [update_frame_stats] may raise. *)
Lemma try_iteration_shape (cfg : gmap string pyval) (queues : gset string)
    (v : pyval) (p : poll) (s : dispatch) :
  setting cfg "output" "save_frames" = Ok v ->
  exists st3 fs3,
    imu_data_count st3
    = imu_data_count (d_stats s) + Z.of_nat (length (packets_of queues p))
    /\ frame_count st3 = frame_count (d_stats s)
    /\ error_count st3 = error_count (d_stats s)
    /\ try_iteration cfg queues p s
       = match update_frame_stats (tick p) st3 with
         | Ok st4 =>
             ({| d_stats := st4; d_fs := fs3;
                 d_frame_count := d_frame_count s + 1 |}, Ok tt)
         | Raise e =>
             ({| d_stats := st3; d_fs := fs3;
                 d_frame_count := d_frame_count s |}, Raise e)
         end.
Proof.
  intros Hs. unfold try_iteration, _handle_frame, packets_of.
  rewrite Hs. simpl.
  destruct (rgb p); destruct (decide ("rgb"%string ∈ queues));
    destruct (depth p); destruct (decide ("depth"%string ∈ queues));
    destruct (imu p) as [packets|];
    destruct (decide ("imu"%string ∈ queues)); simpl.
  all: try (eexists (d_stats s), _;
            split; [lia|]; split; [reflexivity|]; split; [reflexivity|];
            reflexivity).
  all: match goal with
       | |- context [_handle_imu_data ?c ?pk ?st ?fs] =>
           destruct (handle_imu_counts c v pk Hs st fs)
             as (st3 & fs3 & -> & Hi3 & Hf3 & He3)
       end;
       exists st3, fs3; split; [exact Hi3|]; split; [exact Hf3|];
       split; [exact He3|]; reflexivity.
Qed.

Lemma iteration_counts (cfg : gmap string pyval) (queues : gset string)
    (v : pyval) (p : poll) (s : dispatch) :
  setting cfg "output" "save_frames" = Ok v ->
  counted queues p s (iteration cfg queues p s).
Proof.
  intros Hs.
  destruct (try_iteration_shape cfg queues v p s Hs)
    as (st3 & fs3 & Hi & Hf & He & Htry).
  unfold iteration. rewrite Htry.
  destruct (update_frame_stats (tick p) st3) as [st4|] eqn:Hu.
  - apply update_frame_stats_counts in Hu. destruct Hu as (Hf4 & He4 & Hi4).
    constructor; simpl; lia.
  - constructor; simpl; lia.
Qed.

(** X22.  The counters over a run of the dispatch loop, when
    [save_frames] can be read: every iteration is counted exactly once,
    as a frame or as an error; every packet polled from the imu queue is
    counted in imu_data_count; and the loop's own frame_count, which
    numbers the saved frames, is the number of frames counted since the
    loop began. *)
Theorem X22_dispatch_counts (cfg : gmap string pyval) (queues : gset string)
    (v : pyval) (polls : list poll) (st : DepthAIStats) (fs : filesystem) :
  subscript2 cfg "output" "save_frames" = Some v ->
  let s := _process_frames cfg queues polls st fs in
  frame_count (d_stats s) + error_count (d_stats s)
  = frame_count st + error_count st + Z.of_nat (length polls)
  /\ imu_data_count (d_stats s)
     = imu_data_count st
       + Z.of_nat (length (concat (map (packets_of queues) polls)))
  /\ d_frame_count s = frame_count (d_stats s) - frame_count st.
Proof.
  intros Hs.
  assert (Hset : setting cfg "output" "save_frames" = Ok v)
    by (unfold setting; rewrite Hs; reflexivity).
  unfold _process_frames.
  assert (H : forall s0 : dispatch,
            let s := fold_left (fun s p => iteration cfg queues p s) polls s0 in
            frame_count (d_stats s) + error_count (d_stats s)
            = frame_count (d_stats s0) + error_count (d_stats s0)
              + Z.of_nat (length polls)
            /\ imu_data_count (d_stats s)
               = imu_data_count (d_stats s0)
                 + Z.of_nat (length (concat (map (packets_of queues) polls)))
            /\ d_frame_count s - frame_count (d_stats s)
               = d_frame_count s0 - frame_count (d_stats s0)).
  { induction polls as [|p polls IH]; intros s0.
    - simpl. repeat split; lia.
    - simpl fold_left.
      destruct (IH (iteration cfg queues p s0)) as (H1 & H2 & H3).
      destruct (iteration_counts cfg queues v p s0 Hset) as [C1 C2 C3].
      simpl map. simpl concat. rewrite length_app. simpl length.
      simpl. repeat split; lia. }
  cbv zeta.
  destruct (H {| d_stats := st; d_fs := fs; d_frame_count := 0 |})
    as (H1 & H2 & H3).
  simpl in H1, H2, H3.
  split; [exact H1|]. split; [exact H2|]. lia.
Qed.

Lemma X22_witness :
  let polls :=
    [ {| rgb := Some ("20240101_000001"%string, 1%Q); depth := None;
         detections := None;
         imu := Some [("20240101_000001_000000"%string, 1%Q);
                      ("20240101_000001_000001"%string, 1%Q)];
         tick := 1%Q |};
      {| rgb := None; depth := None; detections := None; imu := None;
         tick := 1%Q |} ] in
  let s := _process_frames Config.DEFAULT_CONFIG {[ "rgb"; "imu" ]}%string
             polls (Stats.__init__ 0) fresh_filesystem in
  subscript2 Config.DEFAULT_CONFIG "output" "save_frames"
  = Some (PBool false)
  /\ (frame_count (d_stats s) + error_count (d_stats s)
      = frame_count (Stats.__init__ 0) + error_count (Stats.__init__ 0)
        + Z.of_nat (length polls)
      /\ imu_data_count (d_stats s)
         = imu_data_count (Stats.__init__ 0)
           + Z.of_nat (length (concat (map (packets_of
                                              {[ "rgb"; "imu" ]}%string)
                                           polls)))
      /\ d_frame_count s
         = frame_count (d_stats s) - frame_count (Stats.__init__ 0)).
Proof.
  intros polls s.
  assert (Hs : subscript2 Config.DEFAULT_CONFIG "output" "save_frames"
               = Some (PBool false)) by reflexivity.
  split; [exact Hs|].
  exact (X22_dispatch_counts Config.DEFAULT_CONFIG _ (PBool false) polls
           (Stats.__init__ 0) fresh_filesystem Hs).
Defined.

(** *** Retention while streaming *)

Lemma path_join_longer (a b : string) :
  b <> EmptyString -> path_join a b <> a.
Proof.
  intros Hb. unfold path_join.
  destruct (String.eqb_spec a EmptyString) as [->|Ha]; [exact Hb|].
  assert (Hl : (0 < String.length b)%nat)
    by (destruct b; [contradiction | simpl; lia]).
  destruct (ends_with "/" a); intros H;
    apply (f_equal String.length) in H;
    rewrite !string_length_append in H; simpl in H; lia.
Qed.

Lemma save_imu_elsewhere (cfg : gmap string pyval)
    (output_dir timestamp : string) (now : Q) (fs : filesystem) :
  subscript2 cfg "output" "output_directory" = Some (PStr output_dir) ->
  _save_imu_data cfg timestamp now fs !! output_dir = fs !! output_dir.
Proof.
  intros Hdir. unfold _save_imu_data. rewrite Hdir.
  assert (Hne : path_join output_dir "imu" <> output_dir)
    by (apply path_join_longer; discriminate).
  unfold write_file, makedirs.
  destruct (fs !! path_join output_dir "imu") as [d|] eqn:Hd.
  - rewrite Hd. apply lookup_insert_ne. exact Hne.
  - rewrite lookup_insert_eq. rewrite !lookup_insert_ne by exact Hne.
    reflexivity.
Qed.

Lemma save_frame_keeps_directory (cfg : gmap string pyval)
    (output_dir frame_type timestamp : string) (frame_count : Z) (now : Q)
    (fs : filesystem) :
  subscript2 cfg "output" "output_directory" = Some (PStr output_dir) ->
  is_Some (fs !! output_dir) ->
  is_Some (_save_frame cfg frame_type timestamp frame_count now fs
           !! output_dir).
Proof.
  intros Hdir [d Hd]. unfold _save_frame. rewrite Hdir.
  unfold write_file. rewrite Hd.
  unfold _cleanup_old_files.
  destruct (subscript2 cfg "output" "max_files" ≫= python_int) as [k|];
    [destruct (k <? _)|].
  - erewrite unlink_all by apply lookup_insert_eq. eexists. reflexivity.
  - rewrite lookup_insert_eq. eexists. reflexivity.
  - rewrite lookup_insert_eq. eexists. reflexivity.
Qed.

(** What both kinds of save preserve, one iteration preserves. *)
Lemma handle_imu_invariant (cfg : gmap string pyval)
    (P : filesystem -> Prop) (packets : list (string * Q)) :
  (forall timestamp now fs, P fs -> P (_save_imu_data cfg timestamp now fs)) ->
  forall (st : DepthAIStats) (fs : filesystem),
    P fs -> P (snd (fst (_handle_imu_data cfg packets st fs))).
Proof.
  intros HI. induction packets as [|p packets IH]; intros st fs HP.
  - exact HP.
  - simpl. destruct (setting cfg "output" "save_frames") as [v|e];
      [|exact HP].
    apply IH. destruct (truthy v); [apply HI|]; exact HP.
Qed.

Lemma handle_frame_invariant (cfg : gmap string pyval)
    (P : filesystem -> Prop) (frame_type : string) (frame : string * Q)
    (n : Z) (fs : filesystem) :
  (forall frame_type timestamp n now fs,
     P fs -> P (_save_frame cfg frame_type timestamp n now fs)) ->
  P fs ->
  match _handle_frame cfg frame_type frame n fs with
  | Ok fs' => P fs'
  | Raise _ => True
  end.
Proof.
  intros HF HP. unfold _handle_frame.
  destruct (setting cfg "output" "save_frames") as [v|e]; simpl; [|exact I].
  destruct (truthy v); [apply HF|]; exact HP.
Qed.

Lemma iteration_invariant (cfg : gmap string pyval) (queues : gset string)
    (P : filesystem -> Prop) (p : poll) (s : dispatch) :
  (forall frame_type timestamp n now fs,
     P fs -> P (_save_frame cfg frame_type timestamp n now fs)) ->
  (forall timestamp now fs, P fs -> P (_save_imu_data cfg timestamp now fs)) ->
  P (d_fs s) -> P (d_fs (iteration cfg queues p s)).
Proof.
  intros HF HI HP. unfold iteration, try_iteration.
  assert (H1 : match (match rgb p with
                      | Some frame =>
                          if decide ("rgb"%string ∈ queues)
                          then _handle_frame cfg "rgb" frame
                                 (d_frame_count s) (d_fs s)
                          else Ok (d_fs s)
                      | None => Ok (d_fs s)
                      end) with
               | Ok fs1 => P fs1
               | Raise _ => True
               end).
  { destruct (rgb p); [destruct (decide _)|]; try exact HP.
    apply handle_frame_invariant; assumption. }
  destruct (match rgb p with Some _ => _ | None => _ end) as [fs1|e];
    [|exact HP].
  assert (H2 : match (match depth p with
                      | Some frame =>
                          if decide ("depth"%string ∈ queues)
                          then _handle_frame cfg "depth" frame
                                 (d_frame_count s) fs1
                          else Ok fs1
                      | None => Ok fs1
                      end) with
               | Ok fs2 => P fs2
               | Raise _ => True
               end).
  { destruct (depth p); [destruct (decide _)|]; try exact H1.
    apply handle_frame_invariant; assumption. }
  destruct (match depth p with Some _ => _ | None => _ end) as [fs2|e];
    [|exact H1].
  assert (H3 : P (snd (fst (match imu p with
                            | Some packets =>
                                if decide ("imu"%string ∈ queues)
                                then _handle_imu_data cfg packets
                                       (d_stats s) fs2
                                else (d_stats s, fs2, Ok tt)
                            | None => (d_stats s, fs2, Ok tt)
                            end)))).
  { destruct (imu p); [destruct (decide _)|]; try exact H2.
    apply handle_imu_invariant; assumption. }
  destruct (match imu p with Some _ => _ | None => _ end) as [[st3 fs3] [u|e]];
    simpl in H3; [destruct (update_frame_stats (tick p) st3)|]; exact H3.
Qed.

(** X27.  Retention while streaming.  With the output directory in place
    and max_files = m above 0, a directory that holds at most m jpg files
    holds at most m after any run of the dispatch loop, whatever frames
    and imu packets the queues deliver and whether or not frames are
    saved: the imu files go to their own directory and every saved frame
    is followed by the sweep. *)
Theorem X27_dispatch_retention (cfg : gmap string pyval)
    (queues : gset string) (output_dir : string) (m : Z)
    (polls : list poll) (st : DepthAIStats) (fs : filesystem) :
  subscript2 cfg "output" "output_directory" = Some (PStr output_dir) ->
  subscript2 cfg "output" "max_files" = Some (PInt m) ->
  0 < m ->
  is_Some (fs !! output_dir) ->
  Z.of_nat (length (glob_jpg output_dir fs)) <= m ->
  let after := d_fs (_process_frames cfg queues polls st fs) in
  is_Some (after !! output_dir)
  /\ Z.of_nat (length (glob_jpg output_dir after)) <= m.
Proof.
  intros Hdir Hm Hpos Hsome Hbound. cbv zeta. unfold _process_frames.
  apply (process_frames_fold cfg queues polls
           (fun s => is_Some (d_fs s !! output_dir)
                     /\ Z.of_nat (length (glob_jpg output_dir (d_fs s)))
                        <= m)).
  - intros p s HP.
    apply (iteration_invariant cfg queues
             (fun fs => is_Some (fs !! output_dir)
                        /\ Z.of_nat (length (glob_jpg output_dir fs)) <= m)).
    + intros frame_type timestamp n now fs0 [H1 H2]. split.
      * apply save_frame_keeps_directory; assumption.
      * apply save_frame_bound; assumption.
    + intros timestamp now fs0 [H1 H2]. unfold glob_jpg.
      rewrite (save_imu_elsewhere cfg output_dir) by exact Hdir.
      split; assumption.
    + exact HP.
  - simpl. split; assumption.
Qed.

Lemma X27_witness :
  let polls :=
    [ {| rgb := Some ("20240101_000001"%string, 1%Q);
         depth := Some ("20240101_000001"%string, 1%Q);
         detections := None;
         imu := Some [("20240101_000001_000000"%string, 1%Q)];
         tick := 1%Q |} ] in
  let fs : filesystem := {[ "/data"%string := ∅ ]} in
  let after :=
    d_fs (_process_frames (config_with_max 1) {[ "rgb"; "depth"; "imu" ]}%string
            polls (Stats.__init__ 0) fs) in
  is_Some (after !! "/data"%string)
  /\ Z.of_nat (length (glob_jpg "/data" after)) <= 1.
Proof.
  intros polls fs.
  apply (X27_dispatch_retention (config_with_max 1) _ "/data" 1 polls
           (Stats.__init__ 0) fs);
    [reflexivity | reflexivity | lia | | vm_compute; discriminate].
  exists ∅. reflexivity.
Defined.

End DispatchLaws.


Module SupervisorLaws.
Import Stats Supervisor SupervisorRuns SupervisorFacts.

(** ** The reconnect loop: what a run counts *)

(** No pass changes the statistics inside its [try] block: the block
    raises before the temperature is read. *)
Lemma try_block_keeps_stats (cfg : gmap string pyval) (p : pass)
    (d : daemon) :
  stats (fst (try_block cfg p d)) = stats d.
Proof.
  unfold try_block.
  destruct (_create_pipeline cfg p
              (available_features (say CreatingPipeline d))) as [pl|e];
    [|reflexivity].
  destruct (connects p); destruct (signal_in_pass p); reflexivity.
Qed.

(** One pass of the loop, with the daemon the [try] block leaves. *)
Lemma loop_pass_stats (cfg : gmap string pyval) (m : Z) (delay : pyval)
    (p : pass) (rest : list pass) (d : daemon) :
  running d = true -> reconnect_attempts d < m ->
  exists d1,
    pass_effect d d1
    /\ stats d1 = stats d
    /\ loop cfg (PInt m) delay (p :: rest) d
       = if (reconnect_attempts d + 1 <? m) && running d1
         then loop cfg (PInt m) delay rest
                   (before_retry delay p (after_error d1))
         else finish (say MaxAttemptsOrShutdown (after_error d1)).
Proof.
  intros Hrun Hlt.
  destruct (try_block_raises cfg p d) as (d1 & e & Htry & Heff).
  exists d1. split; [exact Heff|]. split.
  - pose proof (try_block_keeps_stats cfg p d) as H.
    rewrite Htry in H. exact H.
  - simpl loop. rewrite Hrun. simpl int_lt.
    apply Z.ltb_lt in Hlt. rewrite Hlt. rewrite Htry.
    simpl. rewrite (same_attempts _ _ Heff). reflexivity.
Qed.

Lemma after_error_stats (d : daemon) :
  error_count (stats (after_error d)) = error_count (stats d) + 1
  /\ frame_count (stats (after_error d)) = frame_count (stats d).
Proof. split; reflexivity. Qed.

Lemma before_retry_stats (delay : pyval) (p : pass) (d : daemon) :
  stats (before_retry delay p d) = stats d.
Proof. unfold before_retry. destruct (signal_in_delay p); reflexivity. Qed.

Lemma finish_accounted (m : Z) (d : daemon) :
  exists d', finish d = Stopped d' /\ accounted m d d'.
Proof.
  eexists. split; [reflexivity|].
  constructor; simpl; count_log.
Qed.

Lemma loop_accounting (passes : list pass) :
  forall (cfg : gmap string pyval) (m : Z) (delay : pyval) (d : daemon),
    m - reconnect_attempts d <= Z.of_nat (length passes) ->
    exists d',
      loop cfg (PInt m) delay passes d = Stopped d' /\ accounted m d d'.
Proof.
  induction passes as [|p rest IH]; intros cfg m delay d Hlen.
  - rewrite loop_exit by (simpl in Hlen; right; lia).
    apply finish_accounted.
  - destruct (running d) eqn:Hrun;
      [destruct (Z.lt_ge_cases (reconnect_attempts d) m) as [Hlt|Hge]|].
    + destruct (loop_pass_stats cfg m delay p rest d Hrun Hlt)
        as (d1 & Heff & Hst & ->).
      destruct Heff as [Ha Hp Hs Hv Hr].
      destruct (after_error_effect d1) as (Ha2 & Hr2 & Hc2).
      destruct (after_error_stats d1) as (He2 & Hf2).
      destruct ((reconnect_attempts d + 1 <? m) && running d1).
      * destruct (before_retry_effect delay p (after_error d1))
          as (Ha3 & _ & _ & Hc3).
        pose proof (before_retry_stats delay p (after_error d1)) as Hst3.
        destruct (IH cfg m delay (before_retry delay p (after_error d1)))
          as (d' & Hl & [A1 A2 A3 A4 A5 A6 A7]).
        { rewrite Ha3, Ha2, Ha. simpl in Hlen. lia. }
        exists d'. split; [exact Hl|].
        rewrite Hc3, Hc2 in A2, A3, A4, A5, A6.
        rewrite Ha3, Ha2, Ha in A3, A6.
        rewrite Hst3 in A5, A7. rewrite He2, Hst in A5.
        rewrite Hf2, Hst in A7.
        constructor; [exact A1 | congruence | lia | lia | lia | lia
                     | exact A7].
      * destruct (verdict_effect (after_error d1))
          as (d' & Hfin & Ha' & Hm & Hc & Hs' & _).
        rewrite Hfin. exists d'. split; [reflexivity|].
        assert (Hst' : stats d' = stats (after_error d1)).
        { unfold finish in Hfin. injection Hfin as <-. reflexivity. }
        rewrite Hc2 in Hc, Hs'.
        constructor; rewrite ?Hst', ?He2, ?Hf2, ?Hst;
          [exact Hm | congruence | lia | lia | lia | lia | reflexivity].
    + rewrite loop_exit by (right; lia). apply finish_accounted.
    + rewrite loop_exit by (left; exact Hrun). apply finish_accounted.
Qed.

(** X23.  The reconnect loop of [run], with max_reconnect_attempts an
    integer n and reconnect_delay a number of seconds: whatever the device
    and the signals do, [run] returns after at most n passes with the
    monitor stopped; it never reaches "Starting frame processing"; and
    every pass it began is counted once in the error count and once in
    the reconnect counter, while the frame count stays as it was. *)
Theorem X23_run_accounting (cfg : gmap string pyval) (n k : Z)
    (passes : list pass) (d : daemon) :
  subscript2 cfg "service" "max_reconnect_attempts" = Some (PInt n) ->
  subscript2 cfg "service" "reconnect_delay" = Some (PInt k) ->
  0 <= k ->
  n <= Z.of_nat (length passes) ->
  exists (d' : daemon) (begun : nat),
    run cfg passes d = Stopped d'
    /\ count_lines CreatingPipeline d'
       = (count_lines CreatingPipeline d + begun)%nat
    /\ Z.of_nat begun <= Z.max 0 n
    /\ monitoring d' = false
    /\ count_lines StartingFrameProcessing d'
       = count_lines StartingFrameProcessing d
    /\ error_count (stats d') = error_count (stats d) + Z.of_nat begun
    /\ reconnect_attempts d' = Z.of_nat begun
    /\ frame_count (stats d') = frame_count (stats d).
Proof.
  intros Hm Hk _ Hlen. unfold run, setting. rewrite Hm, Hk.
  destruct (loop_accounting passes cfg n (PInt k)
              (set_attempts 0
                 (set_monitoring true (say DaemonStarting d))))
    as (d' & Hl & [A1 A2 A3 A4 A5 A6 A7]).
  { simpl. lia. }
  assert (Hc : forall l, l = CreatingPipeline \/ l = StartingFrameProcessing ->
               count_lines l
                 (set_attempts 0 (set_monitoring true (say DaemonStarting d)))
               = count_lines l d).
  { intros l [-> | ->]; count_log. }
  rewrite (Hc CreatingPipeline) in A3, A4, A5, A6 by (left; reflexivity).
  rewrite (Hc StartingFrameProcessing) in A2 by (right; reflexivity).
  simpl in A3, A5, A6, A7.
  exists d',
    (count_lines CreatingPipeline d' - count_lines CreatingPipeline d)%nat.
  split; [exact Hl|]. split; [lia|]. split; [lia|].
  split; [exact A1|]. split; [exact A2|].
  split; [lia|]. split; [lia|]. exact A7.
Qed.

Lemma X23_witness :
  exists (d' : daemon) (begun : nat),
    run (config_with_attempts 3)
        [connect_failure; connect_success; connect_success] (__init__ 0)
    = Stopped d'
    /\ count_lines CreatingPipeline d'
       = (count_lines CreatingPipeline (__init__ 0) + begun)%nat
    /\ Z.of_nat begun <= Z.max 0 3
    /\ monitoring d' = false
    /\ count_lines StartingFrameProcessing d'
       = count_lines StartingFrameProcessing (__init__ 0)
    /\ error_count (stats d')
       = error_count (stats (__init__ 0)) + Z.of_nat begun
    /\ reconnect_attempts d' = Z.of_nat begun
    /\ frame_count (stats d') = frame_count (stats (__init__ 0)).
Proof.
  apply (X23_run_accounting (config_with_attempts 3) 3 10);
    [reflexivity | reflexivity | lia | simpl; lia].
Defined.

(** X24.  A stop requested before the loop, or max_reconnect_attempts
    not above 0: [run] begins no pass.  It starts the monitor, stops it
    again and returns, having logged its first and its last line only,
    with the statistics untouched. *)
Theorem X24_run_without_pass (cfg : gmap string pyval)
    (max_attempts delay : pyval) (passes : list pass) (d : daemon) :
  subscript2 cfg "service" "max_reconnect_attempts" = Some max_attempts ->
  subscript2 cfg "service" "reconnect_delay" = Some delay ->
  running d = false \/ (exists n, max_attempts = PInt n /\ n <= 0) ->
  exists d',
    run cfg passes d = Stopped d'
    /\ log d' = log d ++ [DaemonStarting; DaemonStopped]
    /\ stats d' = stats d
    /\ monitoring d' = false
    /\ running d' = running d.
Proof.
  intros Hm Hd H. unfold run, setting. rewrite Hm, Hd.
  eexists. split.
  - destruct H as [Hrun | (n & -> & Hn)].
    + destruct passes; simpl; rewrite Hrun; reflexivity.
    + apply loop_exit. right. simpl. exact Hn.
  - simpl. rewrite <- app_assoc. repeat split.
Qed.

Lemma X24_witness :
  exists d',
    run (config_with_attempts 0) [connect_success] (__init__ 0) = Stopped d'
    /\ log d' = log (__init__ 0) ++ [DaemonStarting; DaemonStopped]
    /\ stats d' = stats (__init__ 0)
    /\ monitoring d' = false
    /\ running d' = running (__init__ 0).
Proof.
  apply (X24_run_without_pass (config_with_attempts 0) (PInt 0) (PInt 10));
    [reflexivity | reflexivity | right; exists 0; split; [reflexivity|lia]].
Defined.

(** X25.  max_reconnect_attempts that is not a number (a string, null, a
    list or an object in the configuration file): the first test of the
    loop raises TypeError out of [run].  No pass is begun, and the monitor
    that [run] started is not stopped. *)
Theorem X25_run_type_error (cfg : gmap string pyval)
    (max_attempts delay : pyval) (passes : list pass) (d : daemon) :
  subscript2 cfg "service" "max_reconnect_attempts" = Some max_attempts ->
  subscript2 cfg "service" "reconnect_delay" = Some delay ->
  running d = true ->
  match max_attempts with
  | PInt _ | PFloat _ | PBool _ => False
  | _ => True
  end ->
  exists d',
    run cfg passes d = Crashed TypeError d'
    /\ log d' = log d ++ [DaemonStarting]
    /\ monitoring d' = true
    /\ stats d' = stats d.
Proof.
  intros Hm Hd Hrun Hv. unfold run, setting. rewrite Hm, Hd.
  eexists. split.
  - destruct max_attempts; try contradiction;
      destruct passes; simpl; rewrite Hrun; reflexivity.
  - simpl. repeat split.
Qed.

Lemma X25_witness :
  let cfg := Config._merge_config Config.DEFAULT_CONFIG
               {[ "service"%string := PDict
                    {[ "max_reconnect_attempts"%string := PStr "3" ]} ]} in
  exists d',
    run cfg [connect_success] (__init__ 0) = Crashed TypeError d'
    /\ log d' = log (__init__ 0) ++ [DaemonStarting]
    /\ monitoring d' = true
    /\ stats d' = stats (__init__ 0).
Proof.
  intros cfg.
  apply (X25_run_type_error cfg (PStr "3") (PInt 10));
    [reflexivity | reflexivity | reflexivity | exact I].
Defined.

End SupervisorLaws.
